(** * bcbio.pipeline.fastq: staging and merging of FASTQ inputs

    A shallow embedding of [bcbio/pipeline/fastq.py].  Paths and file
    contents are strings, the file system is a finite map from paths to
    contents, and every function of the module that touches the file
    system is a computation in a small state-and-exception monad whose
    state also records the external commands that were run. *)

From Stdlib Require Import String Ascii ZArith List Bool Lia.
From stdpp Require Import base option list gmap strings fin_maps.

Local Open Scope string_scope.
Local Open Scope list_scope.

(** ** Python string and [os.path] helpers *)

Module PyStr.

(** [s[i:]] and [s[:i]] for a non-negative [i]. *)
Definition drop (i : nat) (s : string) : string :=
  String.substring i (String.length s - i) s.

Definition take (i : nat) (s : string) : string :=
  String.substring 0 i s.

(** [s.endswith(suf)] *)
Definition endswith (s suf : string) : bool :=
  let n := String.length s in
  let m := String.length suf in
  (m <=? n)%nat && String.eqb (drop (n - m) s) suf.

(** [s.startswith(pre)] *)
Definition startswith (s pre : string) : bool := String.prefix pre s.

(** [s.rfind(c)] for a one-character needle: the index of the last
    occurrence, [-1] when there is none. *)
Fixpoint rfind_from (c : ascii) (s : string) (i : Z) : Z :=
  match s with
  | EmptyString => (-1)%Z
  | String a s' =>
      let later := rfind_from c s' (i + 1)%Z in
      if (0 <=? later)%Z then later
      else if Ascii.eqb a c then i else (-1)%Z
  end.

Definition rfind (c : ascii) (s : string) : Z := rfind_from c s 0%Z.

(** Python truthiness of a string and of an optional string. *)
Definition truthy (s : string) : bool := negb (String.eqb s "").

Definition truthy_opt (o : option string) : bool :=
  match o with
  | Some s => truthy s
  | None => false
  end.

End PyStr.

Module PosixPath.

Definition sep : ascii := "/"%char.
Definition extsep : ascii := "."%char.

(** [os.path.join(a, b)] *)
Definition join (a b : string) : string :=
  if PyStr.startswith b "/" then b
  else if negb (PyStr.truthy a) || PyStr.endswith a "/" then a +:+ b
  else a +:+ "/" +:+ b.

(** [os.path.basename(p)] *)
Definition basename (p : string) : string :=
  PyStr.drop (Z.to_nat (PyStr.rfind sep p + 1)) p.

(** The [while filenameIndex < dotIndex] loop of [genericpath._splitext]:
    is there a character other than a dot among the [n] characters of
    [p] that start at [filenameIndex]? *)
Fixpoint non_dot_before (p : string) (filenameIndex n : nat) : bool :=
  match n with
  | O => false
  | S n' =>
      if negb (String.eqb (String.substring filenameIndex 1 p) ".") then true
      else non_dot_before p (S filenameIndex) n'
  end.

(** [os.path.splitext(p)] *)
Definition splitext (p : string) : string * string :=
  let sepIndex := PyStr.rfind sep p in
  let dotIndex := PyStr.rfind extsep p in
  if (sepIndex <? dotIndex)%Z then
    let filenameIndex := Z.to_nat (sepIndex + 1) in
    if non_dot_before p filenameIndex (Z.to_nat dotIndex - filenameIndex)
    then (PyStr.take (Z.to_nat dotIndex) p, PyStr.drop (Z.to_nat dotIndex) p)
    else (p, "")
  else (p, "").

End PosixPath.

(** ** Data model *)

(** [config["algorithm"]]: only the aligner is read by this module.
    [None] stands for a missing or false entry. *)
Record Config := { aligner : option string }.

(** The [data] dictionary handed to [get_fastq_files].  [files] is [None]
    when the key is absent; [reference] holds the keys of
    [data['reference']]; the last three fields are what the [datadict]
    getters [get_work_dir], [get_trim_reads] (its truth value) and
    [get_quality_format] return. *)
Record Data := {
  files : option (list string);
  reference : list string;
  config : Config;
  work_dir : string;
  trim_reads : bool;
  quality_format : string
}.

(** Compression state of a file. *)
Inductive Compression := Uncompressed | Gzipped | Bzipped.

(** External commands and collaborator calls, in the order they happen. *)
Inductive Event :=
| Makedir (dname : string)
| RunGzip (in_file gzipped_file : string)
| RunBunzip2Gzip (in_file gzipped_file : string)
| RunCat (inputs : list string) (out_file : string)
| Move (src dst : string)
| CallGroom (fname out_dir : string)
| CallBamToFastq (in_file : string).

Inductive Exn :=
| AssertNoFiles
| AssertNotExist (in_file : string)
| AssertNotAllExist (inputs : list string)
| ValueErrorNotFastq (inputs : list string)
| IndexError
| CommandFailed (cmd : Event)
| MoveFailed (src : string)
| CollaboratorFailed (call : Event).

(** The files named in the message of an exception. *)
Definition exn_files (e : Exn) : list string :=
  match e with
  | AssertNotExist f => [f]
  | AssertNotAllExist fs | ValueErrorNotFastq fs => fs
  | MoveFailed f => [f]
  | _ => []
  end.

Record World := {
  fs : gmap string string;
  log : list Event
}.

Definition set_fs (m : gmap string string) (w : World) : World :=
  {| fs := m; log := log w |}.

Definition record (e : Event) (w : World) : World :=
  {| fs := fs w; log := log w ++ [e] |}.

(** ** The state-and-exception monad *)

Inductive Res (A : Type) :=
| Ok (a : A) (w : World)
| Raise (e : Exn) (w : World).
Arguments Ok {A} a w.
Arguments Raise {A} e w.

Definition M (A : Type) : Type := World -> Res A.

Definition ret {A} (a : A) : M A := fun w => Ok a w.
Definition raise {A} (e : Exn) : M A := fun w => Raise e w.
Definition bind {A B} (c : M A) (k : A -> M B) : M B :=
  fun w => match c w with
           | Ok a w' => k a w'
           | Raise e w' => Raise e w'
           end.

Notation "'let!' x ':=' c 'in' k" := (bind c (fun x => k))
  (at level 10, x pattern, c at level 100, k at level 200).
Notation "c ';;' k" := (bind c (fun _ => k))
  (at level 100, k at level 200, right associativity).

(** A list comprehension whose body has effects, left to right. *)
Fixpoint mapM {A B} (f : A -> M B) (l : list A) : M (list B) :=
  match l with
  | [] => ret []
  | x :: l' => let! y := f x in let! ys := mapM f l' in ret (y :: ys)
  end.

(** A [for] loop whose body has effects and no result. *)
Fixpoint forM_ {A} (f : A -> M unit) (l : list A) : M unit :=
  match l with
  | [] => ret tt
  | x :: l' => f x;; forM_ f l'
  end.

(** ** Collaborators

    The functions below are imported by [fastq.py] from other modules.
    The inspectors are pure functions of the path; the codecs act on file
    contents; the two conversion delegates may read and write files and
    may fail. *)
Class Collaborators := {
  (** [objectstore.is_remote] *)
  is_remote : string -> bool;
  (** [bcbio.bam.fastq.is_fastq] *)
  is_fastq : string -> bool;
  (** Modelled from the spec: [utils.is_gzipped] and [utils.is_bzipped]
      are not part of the module; the data model gives every file one
      compression state (none, gzip or bzip2), from which both are read. *)
  compression : string -> Compression;
  (** what [gzip] and [bunzip2] do to the bytes of a file *)
  gzip_bytes : string -> string;
  bunzip2_bytes : string -> string;
  (** [alignment.metadata.get("support_bam", [])] *)
  support_bam : list string;
  (** [utils.splitext_plus] *)
  splitext_plus : string -> string * string;
  (** [fastq.groom(fname, data, out_dir=out_dir)] *)
  groom : string -> Data -> string -> gmap string string ->
          option (option string * gmap string string);
  (** [alignprep.prep_fastq_inputs(in_files, data)] *)
  prep_fastq_inputs : list string -> Data -> gmap string string ->
                      option (list (option string) * gmap string string)
}.

Definition is_gzipped `{Collaborators} (f : string) : bool :=
  match compression f with Gzipped => true | _ => false end.

Definition is_bzipped `{Collaborators} (f : string) : bool :=
  match compression f with Bzipped => true | _ => false end.

(** ** File-system primitives *)

(** Modelled from the spec: [utils.file_exists] is the exists-on-disk
    inspector; so is [os.path.exists]. *)
Definition file_exists (f : string) : M bool :=
  fun w => Ok (bool_decide (is_Some (fs w !! f))) w.

Definition path_exists (f : string) : M bool := file_exists f.

(** [utils.safe_makedir(dname)]: creates the directory and returns it. *)
Definition safe_makedir (dname : string) : M string :=
  fun w => Ok dname (record (Makedir dname) w).

(** [do.run(cmd, message)] inside [with file_transaction(out)]: the
    command writes a temporary file that is renamed to [out] when the
    command succeeds and discarded when it fails, so [out] receives the
    whole result or nothing.  [produce] is the content the command
    computes from the current files, [None] when it fails. *)
Definition run_in_transaction (cmd : Event) (out : string)
    (produce : gmap string string -> option string) : M unit :=
  fun w =>
    let w' := record cmd w in
    match produce (fs w) with
    | Some bytes => Ok tt (set_fs (<[out := bytes]> (fs w)) w')
    | None => Raise (CommandFailed cmd) w'
    end.

(** [cat f1 f2 ...]: the contents in order; fails on a missing file. *)
Fixpoint cat (m : gmap string string) (inputs : list string) : option string :=
  match inputs with
  | [] => Some ""
  | f :: rest =>
      match m !! f, cat m rest with
      | Some c, Some cs => Some (c +:+ cs)
      | _, _ => None
      end
  end.

(** [shutil.move(src, dst)] of a regular file to a path that is not a
    directory. *)
Definition shutil_move (src dst : string) : M unit :=
  fun w =>
    match fs w !! src with
    | Some bytes =>
        Ok tt (set_fs (<[dst := bytes]> (delete src (fs w))) (record (Move src dst) w))
    | None => Raise (MoveFailed src) w
    end.

(** ** The module [bcbio.pipeline.fastq] *)

Section Fastq.

Context `{Collaborators}.

(** The choice of [gzipped_file] that [_gzip_fastq] makes from
    [in_file] and [_bzip_gzip] from [base]:
    [os.path.join(out_dir, os.path.basename(f) + ".gz")] if [out_dir]
    is given (and not empty), [f + ".gz"] otherwise. *)
Definition gzipped_path (f : string) (out_dir : option string) : string :=
  match out_dir with
  | Some d =>
      if PyStr.truthy d
      then PosixPath.join d (PosixPath.basename f +:+ ".gz")
      else f +:+ ".gz"
  | None => f +:+ ".gz"
  end.

(** [_bzip_gzip(in_file, out_dir=None)] *)
Definition _bzip_gzip (in_file : string) (out_dir : option string) : M string :=
  if negb (is_bzipped in_file) then ret in_file
  else
    let base := fst (PosixPath.splitext in_file) in
    let gzipped_file := gzipped_path base out_dir in
    if is_fastq base && negb (is_remote in_file) then
      let! there := file_exists gzipped_file in
      if there then ret gzipped_file
      else
        run_in_transaction (RunBunzip2Gzip in_file gzipped_file) gzipped_file
          (fun m => (fun bytes => gzip_bytes (bunzip2_bytes bytes)) <$> m !! in_file);;
        ret gzipped_file
    else ret in_file.

(** [_gzip_fastq(in_file, out_dir=None)] *)
Definition _gzip_fastq (in_file : string) (out_dir : option string) : M string :=
  if is_fastq in_file && negb (is_remote in_file) then
    if is_bzipped in_file then _bzip_gzip in_file out_dir
    else if negb (is_gzipped in_file) then
      let gzipped_file := gzipped_path in_file out_dir in
      let! there := file_exists gzipped_file in
      if there then ret gzipped_file
      else
        run_in_transaction (RunGzip in_file gzipped_file) gzipped_file
          (fun m => gzip_bytes <$> m !! in_file);;
        ret gzipped_file
    else ret in_file
  else ret in_file.

(** [_pipeline_needs_fastq(config, data)], as the truth value the
    caller tests: [aligner and not support_bam]. *)
Definition _pipeline_needs_fastq (config : Config) (data : Data) : bool :=
  let support_bam :=
    match aligner config with
    | Some a => bool_decide (a ∈ support_bam)
    | None => false
    end in
  PyStr.truthy_opt (aligner config) && negb support_bam.

(** [convert_bam_to_fastq(in_file, work_dir, data, dirs, config)]: the
    body uses [in_file] and [data] only. *)
Definition convert_bam_to_fastq (in_file : string) (data : Data)
    : M (list (option string)) :=
  fun w =>
    let w' := record (CallBamToFastq in_file) w in
    match prep_fastq_inputs [in_file] data (fs w) with
    | Some (outs, m) => Ok outs (set_fs m w')
    | None => Raise (CollaboratorFailed (CallBamToFastq in_file)) w'
    end.

(** [fastq.groom(fname, data, out_dir=out_dir)] as a computation. *)
Definition call_groom (fname : string) (data : Data) (out_dir : string)
    : M (option string) :=
  fun w =>
    let w' := record (CallGroom fname out_dir) w in
    match groom fname data out_dir (fs w) with
    | Some (out, m) => Ok out (set_fs m w')
    | None => Raise (CollaboratorFailed (CallGroom fname out_dir)) w'
    end.

(** One iteration of the [for fname in data["files"]] loop of
    [get_fastq_files]: the new value of [ready_files]. *)
Definition stage_file (data : Data) (ready_files : list (option string))
    (fname : string) : M (list (option string)) :=
  if PyStr.endswith fname ".bam" then
    if _pipeline_needs_fastq (config data) data
    then convert_bam_to_fastq fname data
    else ret [Some fname]
  else if is_remote fname then ret (ready_files ++ [Some fname])
  else if negb (trim_reads data)
          && negb (String.eqb (quality_format data) "standard") then
    let! out_dir := safe_makedir (PosixPath.join (work_dir data) "fastq_convert") in
    let! groomed := call_groom fname data out_dir in
    ret (ready_files ++ [groomed])
  else ret (ready_files ++ [Some fname]).

(** The whole loop, from a given [ready_files]. *)
Fixpoint stage_files (data : Data) (ready_files : list (option string))
    (fnames : list string) : M (list (option string)) :=
  match fnames with
  | [] => ret ready_files
  | fname :: rest =>
      let! ready_files := stage_file data ready_files fname in
      stage_files data ready_files rest
  end.

(** The closing loop of [get_fastq_files]. *)
Definition assert_exists (in_file : string) : M unit :=
  if negb (is_remote in_file) then
    let! there := path_exists in_file in
    if there then ret tt else raise (AssertNotExist in_file)
  else ret tt.

(** [get_fastq_files(data)] *)
Definition get_fastq_files (data : Data) : M (list string) :=
  match files data with
  | None => raise AssertNoFiles
  | Some fnames =>
      let should_gzip :=
        if bool_decide ("bowtie" ∈ reference data) then false else true in
      let! ready_files := stage_files data [] fnames in
      let ready_files := omap id ready_files in
      let! ready_files :=
        if should_gzip then
          let! out_dir := safe_makedir (PosixPath.join (work_dir data) "fastq") in
          mapM (fun x => _gzip_fastq x (Some out_dir)) ready_files
        else ret ready_files in
      forM_ assert_exists ready_files;;
      ret ready_files
  end.

(** [_merge_list_fastqs(files, out_file, config)] *)
Definition _merge_list_fastqs (files : list string) (out_file : string)
    (config : Config) : M string :=
  if negb (forallb is_fastq files) then raise (ValueErrorNotFastq files)
  else
    let! present := mapM file_exists files in
    if negb (forallb id present) then raise (AssertNotAllExist files)
    else
      let! out_there := file_exists out_file in
      if negb out_there then
        let! files := mapM (fun fn => _gzip_fastq fn None) files in
        if (length files =? 1)%nat then
          match files with
          | f0 :: _ => shutil_move f0 out_file;; ret out_file
          | [] => raise IndexError
          end
        else
          run_in_transaction (RunCat files out_file) out_file
            (fun m => cat m files);;
          ret out_file
      else ret out_file.

(** What [merge] returns: one path for single-end input, a list of two
    paths for paired-end input. *)
Inductive Merged :=
| MergedSingle (out_file : string)
| MergedPaired (out_files : list string).

(** [fastq_file[i]] *)
Definition item (i : nat) (fastq_file : list string) : M string :=
  match fastq_file !! i with
  | Some f => ret f
  | None => raise IndexError
  end.

(** [merge(files, out_file, config)] *)
Definition merge (files : list (list string)) (out_file : string)
    (config : Config) : M Merged :=
  let! pair1 := mapM (item 0) files in
  match files with
  | [] => raise IndexError
  | first :: _ =>
      if (1 <? length first)%nat then
        let path := splitext_plus out_file in
        let pair1_out_file := fst path +:+ "_R1" +:+ snd path in
        let! pair2 := mapM (item 1) files in
        let pair2_out_file := fst path +:+ "_R2" +:+ snd path in
        _merge_list_fastqs pair1 pair1_out_file config;;
        _merge_list_fastqs pair2 pair2_out_file config;;
        ret (MergedPaired [pair1_out_file; pair2_out_file])
      else
        let! out := _merge_list_fastqs pair1 out_file config in
        ret (MergedSingle out)
  end.

End Fastq.

(** ** A concrete set of collaborators

    Inspectors that go by the file name, tagging codecs, and conversion
    delegates that write their outputs next to the working directory.
    The examples and the concrete runs below are evaluated with them. *)

Module Sample.

Definition fastq_ends : list string := [".txt"; ".fq"; ".fastq"].
Definition zip_ends : list string := [".gzip"; ".gz"; ".bz2"; ".bzip2"].

Definition sample_is_fastq (in_file : string) : bool :=
  let '(base, first_ext) := PosixPath.splitext in_file in
  let second_ext := snd (PosixPath.splitext base) in
  bool_decide (first_ext ∈ fastq_ends)
  || (bool_decide (second_ext ∈ fastq_ends) && bool_decide (first_ext ∈ zip_ends)).

Definition sample_compression (fname : string) : Compression :=
  let ext := snd (PosixPath.splitext fname) in
  if bool_decide (ext ∈ [".gz"; "gzip"]) then Gzipped
  else if bool_decide (ext ∈ [".bz2"; "bzip2"]) then Bzipped
  else Uncompressed.

Definition sample_splitext_plus (f : string) : string * string :=
  let '(base, ext) := PosixPath.splitext f in
  if bool_decide (ext ∈ [".gz"; ".bz2"; ".zip"]) then
    let '(base, ext2) := PosixPath.splitext base in (base, ext2 +:+ ext)
  else (base, ext).

Definition sample_groom (fname : string) (data : Data) (out_dir : string)
    (m : gmap string string) : option (option string * gmap string string) :=
  match m !! fname with
  | Some bytes =>
      let out := PosixPath.join out_dir (PosixPath.basename fname) in
      Some (Some out, <[out := "groomed(" +:+ bytes +:+ ")"]> m)
  | None => None
  end.

Definition sample_prep_fastq_inputs (in_files : list string) (data : Data)
    (m : gmap string string)
    : option (list (option string) * gmap string string) :=
  match in_files with
  | [bam] =>
      let bytes := default "" (m !! bam) in
      let stem := PosixPath.basename (fst (PosixPath.splitext bam)) in
      let r1 := PosixPath.join (work_dir data) (stem +:+ "_1.fastq.gz") in
      let r2 := PosixPath.join (work_dir data) (stem +:+ "_2.fastq.gz") in
      Some ([Some r1; Some r2],
            <[r2 := "mate2(" +:+ bytes +:+ ")"]>
              (<[r1 := "mate1(" +:+ bytes +:+ ")"]> m))
  | _ => None
  end.

#[export] Instance collaborators : Collaborators := {|
  is_remote f := PyStr.startswith f "s3://";
  is_fastq := sample_is_fastq;
  compression := sample_compression;
  gzip_bytes bytes := "gz(" +:+ bytes +:+ ")";
  bunzip2_bytes bytes := "bunzip2(" +:+ bytes +:+ ")";
  support_bam := ["bwa"; "novoalign"];
  splitext_plus := sample_splitext_plus;
  groom := sample_groom;
  prep_fastq_inputs := sample_prep_fastq_inputs
|}.

Definition disk (entries : list (string * string)) : World :=
  {| fs := list_to_map entries; log := [] |}.

Definition lane (fnames : list string) (ref : list string)
    (alg : option string) : Data :=
  {| files := Some fnames; reference := ref; config := {| aligner := alg |};
     work_dir := "work"; trim_reads := true; quality_format := "standard" |}.

Definition no_aligner : Config := {| aligner := None |}.

End Sample.

(** ** Notions used in the statements *)

Section Derived.

Context `{Collaborators}.

(** The path [_bzip_gzip] returns when it returns: it depends on the
    name of the input only. *)
Definition bzip_gzip_path (in_file : string) (out_dir : option string) : string :=
  if negb (is_bzipped in_file) then in_file
  else
    let base := fst (PosixPath.splitext in_file) in
    if is_fastq base && negb (is_remote in_file)
    then gzipped_path base out_dir
    else in_file.

(** Likewise for [_gzip_fastq]. *)
Definition gzip_fastq_path (in_file : string) (out_dir : option string) : string :=
  if is_fastq in_file && negb (is_remote in_file) then
    if is_bzipped in_file then bzip_gzip_path in_file out_dir
    else if negb (is_gzipped in_file) then gzipped_path in_file out_dir
    else in_file
  else in_file.

(** The files an event reads or converts. *)
Definition event_inputs (e : Event) : list string :=
  match e with
  | Makedir _ => []
  | RunGzip f _ | RunBunzip2Gzip f _ | CallGroom f _ | CallBamToFastq f => [f]
  | RunCat fs _ => fs
  | Move src _ => [src]
  end.

(** [f] is on disk in [w]. *)
Definition on_disk (w : World) (f : string) : Prop := is_Some (fs w !! f).

(** Does [_gzip_fastq] have a conversion to make for [in_file], that is,
    does control reach one of the two external commands if the target is
    not on disk yet? *)
Definition gzip_fastq_converts (in_file : string) : bool :=
  is_fastq in_file && negb (is_remote in_file) &&
  match compression in_file with
  | Bzipped => is_fastq (fst (PosixPath.splitext in_file))
  | Uncompressed => true
  | Gzipped => false
  end.

(** The bytes the conversion writes, from the bytes of [in_file]. *)
Definition gzip_fastq_codec (in_file : string) : string -> string :=
  if is_bzipped in_file
  then fun bytes => gzip_bytes (bunzip2_bytes bytes)
  else gzip_bytes.

(** The command that does it. *)
Definition gzip_fastq_command (in_file gzipped_file : string) : Event :=
  if is_bzipped in_file
  then RunBunzip2Gzip in_file gzipped_file
  else RunGzip in_file gzipped_file.

(** The world a computation ends in, whether it returns or raises. *)
Definition world_of {A} (r : Res A) : World :=
  match r with Ok _ w | Raise _ w => w end.

(** From [w] to [w'] the log grew by events that all satisfy [P]. *)
Definition steps (P : Event -> Prop) (w w' : World) : Prop :=
  exists new, log w' = log w ++ new /\ Forall P new.

(** Every run of [c] adds only events that satisfy [P]. *)
Definition traced {A} (P : Event -> Prop) (c : M A) : Prop :=
  forall w, steps P w (world_of (c w)).

(** The test behind [should_gzip = False], commented in the source
    "Bowtie does not accept gzipped fastq": the reference of the batch
    has a [bowtie] index. *)
Definition needs_uncompressed (data : Data) : Prop :=
  "bowtie" ∈ reference data.

(** The path and the bytes of the gzip-normalised form of [f], as
    [_gzip_fastq f] (no output directory) leaves them when [f] is on
    disk in [m]: the file at the gzip path if there is one already, the
    converted bytes of [f] otherwise. *)
Definition normalised_path (f : string) : string := gzip_fastq_path f None.

Definition normalised_bytes (m : gmap string string) (f : string) : option string :=
  match m !! normalised_path f with
  | Some bytes => Some bytes
  | None => gzip_fastq_codec f <$> m !! f
  end.

(** The concatenation, in order, of the normalised forms of [inputs]. *)
Fixpoint normalised_cat (m : gmap string string) (inputs : list string)
    : option string :=
  match inputs with
  | [] => Some ""
  | f :: rest =>
      match normalised_bytes m f, normalised_cat m rest with
      | Some c, Some cs => Some (c +:+ cs)
      | _, _ => None
      end
  end.

(** The file system after a successful [_gzip_fastq f]. *)
Definition gzip_fastq_fs (m : gmap string string) (f : string) : gmap string string :=
  if gzip_fastq_converts f then
    match m !! normalised_path f, m !! f with
    | None, Some bytes => <[normalised_path f := gzip_fastq_codec f bytes]> m
    | _, _ => m
    end
  else m.

(** ... and after [[_gzip_fastq(fn) for fn in files]]. *)
Fixpoint gzip_fastq_all_fs (m : gmap string string) (inputs : list string)
    : gmap string string :=
  match inputs with
  | [] => m
  | f :: rest => gzip_fastq_all_fs (gzip_fastq_fs m f) rest
  end.

(** The two mates of every file set, and the two outputs of [merge]. *)
Definition mate (i : nat) (sets : list (list string)) : list string :=
  map (fun s => nth i s "") sets.

Definition paired_out (tag out_file : string) : string :=
  fst (splitext_plus out_file) +:+ tag +:+ snd (splitext_plus out_file).

(** No two different files of [l] have the same normalised path. *)
Definition distinct_normal_forms (l : list string) : Prop :=
  Forall (fun g1 =>
            Forall (fun g2 => normalised_path g1 = normalised_path g2 -> g1 = g2) l)
         l.

(** No normalised path of [l1] is a file of [l2] or a normalised path of
    a file of [l2]. *)
Definition normal_forms_apart (l1 l2 : list string) : Prop :=
  Forall (fun a =>
            Forall (fun b => normalised_path a <> b /\
                             normalised_path a <> normalised_path b) l2)
         l1.

(** The test of [get_fastq_files] that sends a local file to
    [fastq.groom] is [not trim_reads and quality_format != "standard"];
    this is its negation. *)
Definition no_grooming (data : Data) : bool :=
  trim_reads data || String.eqb (quality_format data) "standard".

(** What the loop of [get_fastq_files] does to [ready_files] when it
    neither converts nor grooms: a [.bam] name replaces the list, any
    other name is appended. *)
Definition keep_step (ready : list string) (fname : string) : list string :=
  if PyStr.endswith fname ".bam" then [fname] else ready ++ [fname].

Fixpoint kept_from (ready : list string) (fnames : list string) : list string :=
  match fnames with
  | [] => ready
  | fname :: rest => kept_from (keep_step ready fname) rest
  end.

(** What the closing loop of [get_fastq_files] accepts: a remote file or
    a file on disk. *)
Definition staged_ok (w : World) (f : string) : Prop :=
  is_remote f = true \/ on_disk w f.

(** ... and what it rejects. *)
Definition missing_local (w : World) (f : string) : bool :=
  negb (is_remote f) && negb (bool_decide (on_disk w f)).

End Derived.

(** Closing a goal about a concrete run by evaluation. *)
Ltac by_running := vm_compute; reflexivity.
Ltac by_deciding := apply (bool_decide_unpack _); vm_compute; exact I.

(** Splitting [Hf : f ∈ l], for a concrete list [l], into one goal per
    member. *)
Ltac members Hf :=
  apply list_elem_of_In in Hf; vm_compute in Hf;
  repeat (destruct Hf as [<- | Hf]); try contradiction.

(** ** Properties *)

Section Properties.

Context `{Collaborators}.

Lemma bind_Ok {A B} (c : M A) (k : A -> M B) w a w' :
  c w = Ok a w' -> bind c k w = k a w'.
Proof. intros Hc. unfold bind. now rewrite Hc. Qed.

Lemma bind_Ok_inv {A B} (c : M A) (k : A -> M B) w b w2 :
  bind c k w = Ok b w2 -> exists a w1, c w = Ok a w1 /\ k a w1 = Ok b w2.
Proof.
  unfold bind. destruct (c w) as [a w1|e w1]; [eauto | discriminate].
Qed.

Lemma is_gzipped_not_bzipped f : is_gzipped f = true -> is_bzipped f = false.
Proof. unfold is_gzipped, is_bzipped. now destruct (compression f). Qed.

(** *** Gzip normalization and the bzip2 transform *)

Lemma gzip_fastq_remote (in_file : string) (out_dir : option string) (w : World) :
  is_remote in_file = true -> _gzip_fastq in_file out_dir w = Ok in_file w.
Proof.
  intros Hremote. unfold _gzip_fastq. rewrite Hremote.
  now rewrite andb_false_r.
Qed.

Lemma gzip_fastq_gzipped (in_file : string) (out_dir : option string) (w : World) :
  is_gzipped in_file = true -> _gzip_fastq in_file out_dir w = Ok in_file w.
Proof.
  intros Hgz. unfold _gzip_fastq.
  rewrite (is_gzipped_not_bzipped _ Hgz), Hgz.
  now destruct (is_fastq in_file && negb (is_remote in_file)).
Qed.

(** C9: on a file that is already gzip-compressed, and on a remote
    file, [_gzip_fastq] returns the path it was given and leaves the
    file system and the command log as they were. *)
Theorem gzip_fastq_noop (in_file : string) (out_dir : option string) (w : World) :
  is_gzipped in_file = true \/ is_remote in_file = true ->
  _gzip_fastq in_file out_dir w = Ok in_file w.
Proof.
  intros [Hgz | Hremote].
  - now apply gzip_fastq_gzipped.
  - now apply gzip_fastq_remote.
Qed.

Lemma bzip_gzip_not_bzipped in_file out_dir w :
  is_bzipped in_file = false -> _bzip_gzip in_file out_dir w = Ok in_file w.
Proof. intros Hb. unfold _bzip_gzip. now rewrite Hb. Qed.

Lemma bzip_gzip_remote in_file out_dir w :
  is_remote in_file = true -> _bzip_gzip in_file out_dir w = Ok in_file w.
Proof.
  intros Hr. unfold _bzip_gzip. rewrite Hr, andb_false_r.
  now destruct (negb (is_bzipped in_file)).
Qed.

(** C8, as the code has it: [_bzip_gzip] returns its input untouched
    when the input is not bzip2-compressed and also when it is remote.
    For a local bzip2-compressed file whose name without the last
    extension is read-format, the result is at [base + ".gz"], moved
    into [out_dir] when one is given; if that path is on disk it is
    returned and nothing runs, otherwise [bunzip2 | gzip] runs once on
    the input and writes it. *)
Theorem bzip_gzip_spec (in_file : string) (out_dir : option string) (w : World) :
  let base := fst (PosixPath.splitext in_file) in
  let gzipped_file := gzipped_path base out_dir in
  (is_bzipped in_file = false \/ is_remote in_file = true ->
   _bzip_gzip in_file out_dir w = Ok in_file w) /\
  (is_bzipped in_file = true -> is_fastq base = true ->
   is_remote in_file = false ->
   (on_disk w gzipped_file ->
    _bzip_gzip in_file out_dir w = Ok gzipped_file w) /\
   (forall bytes,
      fs w !! gzipped_file = None -> fs w !! in_file = Some bytes ->
      _bzip_gzip in_file out_dir w =
        Ok gzipped_file
           (set_fs (<[gzipped_file := gzip_bytes (bunzip2_bytes bytes)]> (fs w))
                   (record (RunBunzip2Gzip in_file gzipped_file) w)))).
Proof.
  intros base gzipped_file. split.
  - intros [Hb | Hr]; [now apply bzip_gzip_not_bzipped | now apply bzip_gzip_remote].
  - intros Hb Hfq Hr. unfold _bzip_gzip. fold base. fold gzipped_file.
    rewrite Hb, Hfq, Hr. cbn [negb andb].
    unfold bind, file_exists, run_in_transaction, ret. split.
    + intros Hon. rewrite bool_decide_eq_true_2 by exact Hon. reflexivity.
    + intros bytes Hnone Hin.
      rewrite bool_decide_eq_false_2 by (rewrite Hnone; apply is_Some_None).
      rewrite Hin. reflexivity.
Qed.

(** *** Merging one list of files *)

Lemma mapM_file_exists (l : list string) (w : World) :
  mapM file_exists l w = Ok (map (fun f => bool_decide (on_disk w f)) l) w.
Proof.
  induction l as [|f l IH]; [reflexivity |].
  cbn [mapM map]. unfold bind at 1. cbn [file_exists].
  unfold bind at 1. rewrite IH. reflexivity.
Qed.

Lemma forallb_false_elem {A} (p : A -> bool) (l : list A) (x : A) :
  x ∈ l -> p x = false -> forallb p l = false.
Proof.
  intros Hin Hp. apply not_true_is_false. intros Hall.
  rewrite forallb_forall in Hall. apply list_elem_of_In in Hin.
  specialize (Hall x Hin). congruence.
Qed.

Lemma forallb_true_elem {A} (p : A -> bool) (l : list A) :
  (forall x, x ∈ l -> p x = true) -> forallb p l = true.
Proof.
  intros Hall. apply forallb_forall. intros x Hin.
  apply Hall. now apply list_elem_of_In.
Qed.

Lemma all_present_true (l : list string) (w : World) :
  (forall f, f ∈ l -> on_disk w f) ->
  forallb id (map (fun f => bool_decide (on_disk w f)) l) = true.
Proof.
  intros Hall. apply forallb_forall. intros b Hb.
  apply in_map_iff in Hb as [f [<- Hin]]. unfold id.
  apply bool_decide_eq_true_2. apply Hall. now apply list_elem_of_In.
Qed.

Lemma all_present_false (l : list string) (w : World) (f : string) :
  f ∈ l -> fs w !! f = None ->
  forallb id (map (fun f => bool_decide (on_disk w f)) l) = false.
Proof.
  intros Hin Hnone.
  apply (forallb_false_elem _ _ (bool_decide (on_disk w f))).
  - apply list_elem_of_In, in_map_iff. exists f. split; [reflexivity |].
    now apply list_elem_of_In.
  - unfold id. apply bool_decide_eq_false_2. unfold on_disk.
    rewrite Hnone. apply is_Some_None.
Qed.

(** C7, as the code has it: [_merge_list_fastqs] raises, with the world
    exactly as it found it, as soon as one input is not read-format or
    is not on disk.  It is the [ValueError] when some input is not
    read-format, whether or not a file is missing too, and the failed
    assertion when all are read-format and one is missing.  Either way
    the message is made from the whole list of inputs: it names every
    input, the valid ones as well, and does not single out the file
    that is not read-format or is missing. *)
Theorem merge_list_rejects_bad_input
    (inputs : list string) (out_file : string) (config : Config) (w : World)
    (f : string) :
  f ∈ inputs ->
  is_fastq f = false \/ fs w !! f = None ->
  exists e,
    _merge_list_fastqs inputs out_file config w = Raise e w /\
    exn_files e = inputs /\
    ((exists g, g ∈ inputs /\ is_fastq g = false) -> e = ValueErrorNotFastq inputs) /\
    ((forall g, g ∈ inputs -> is_fastq g = true) -> e = AssertNotAllExist inputs).
Proof.
  intros Hin Hbad. unfold _merge_list_fastqs.
  destruct (forallb is_fastq inputs) eqn:Hall; cbn [negb].
  - assert (Hfq : forall g, g ∈ inputs -> is_fastq g = true).
    { intros g Hg. rewrite forallb_forall in Hall. apply Hall.
      now apply list_elem_of_In. }
    destruct Hbad as [Hnot | Hmissing]; [rewrite (Hfq f Hin) in Hnot; discriminate |].
    exists (AssertNotAllExist inputs).
    rewrite (bind_Ok _ _ _ _ _ (mapM_file_exists inputs w)).
    rewrite (all_present_false inputs w f Hin Hmissing). cbn [negb].
    split; [reflexivity |]. split; [reflexivity |]. split; [| reflexivity].
    intros [g [Hg Hgn]]. rewrite (Hfq g Hg) in Hgn. discriminate.
  - exists (ValueErrorNotFastq inputs).
    split; [reflexivity |]. split; [reflexivity |]. split; [reflexivity |].
    intros Hfq. rewrite (forallb_true_elem _ _ Hfq) in Hall. discriminate.
Qed.

(** C3, as the code has it: when the output is on disk and every input
    is a read-format file that is on disk, [_merge_list_fastqs] returns
    the output path and changes nothing, runs nothing. *)
Theorem merge_list_cached
    (inputs : list string) (out_file : string) (config : Config) (w : World) :
  on_disk w out_file ->
  (forall f, f ∈ inputs -> is_fastq f = true) ->
  (forall f, f ∈ inputs -> on_disk w f) ->
  _merge_list_fastqs inputs out_file config w = Ok out_file w.
Proof.
  intros Hout Hfq Hon. unfold _merge_list_fastqs.
  rewrite (forallb_true_elem _ _ Hfq). cbn [negb].
  rewrite (bind_Ok _ _ _ _ _ (mapM_file_exists inputs w)).
  rewrite (all_present_true inputs w Hon). cbn [negb].
  unfold bind, file_exists. fold (on_disk w out_file).
  rewrite bool_decide_eq_true_2 by exact Hout. reflexivity.
Qed.

(** *** Arity of the file sets given to [merge] *)

Lemma mapM_item (i : nat) (sets : list (list string)) (w : World) :
  mapM (item i) sets w =
    if forallb (fun s => (i <? length s)%nat) sets
    then Ok (map (fun s => nth i s "") sets) w
    else Raise IndexError w.
Proof.
  induction sets as [|s sets IH]; [reflexivity |].
  cbn [mapM forallb map]. unfold bind at 1. unfold item at 1.
  destruct (s !! i) as [x|] eqn:Hlook.
  - assert (Hlt : (i < length s)%nat) by (eapply lookup_lt_Some; eauto).
    apply Nat.ltb_lt in Hlt. rewrite Hlt. cbn [andb].
    unfold ret at 1. unfold bind at 1. rewrite IH.
    destruct (forallb _ sets); [| reflexivity].
    unfold ret. rewrite (nth_lookup_Some _ _ "" _ Hlook). reflexivity.
  - apply lookup_ge_None in Hlook. apply Nat.ltb_ge in Hlook.
    rewrite Hlook. reflexivity.
Qed.

Lemma forallb_lt_true (i : nat) (sets : list (list string)) :
  (forall s, s ∈ sets -> (i < length s)%nat) ->
  forallb (fun s => (i <? length s)%nat) sets = true.
Proof.
  intros Hall. apply forallb_true_elem. intros s Hs.
  apply Nat.ltb_lt. auto.
Qed.

Lemma merge_paired_unfold
    (first : list string) (rest : list (list string))
    (out_file : string) (config : Config) (w : World) :
  (1 < length first)%nat ->
  (forall s, s ∈ rest -> (2 <= length s)%nat) ->
  merge (first :: rest) out_file config w =
    (_merge_list_fastqs (mate 0 (first :: rest)) (paired_out "_R1" out_file) config;;
     _merge_list_fastqs (mate 1 (first :: rest)) (paired_out "_R2" out_file) config;;
     ret (MergedPaired [paired_out "_R1" out_file; paired_out "_R2" out_file])) w.
Proof.
  intros Hfirst Hrest.
  assert (Hall : forall s, s ∈ first :: rest -> (2 <= length s)%nat).
  { intros s Hs. apply elem_of_cons in Hs as [-> | Hs]; [lia | auto]. }
  unfold merge. unfold bind at 1. rewrite mapM_item.
  rewrite forallb_lt_true by (intros s Hs; specialize (Hall s Hs); lia).
  apply Nat.ltb_lt in Hfirst. rewrite Hfirst.
  unfold bind at 1. rewrite mapM_item.
  rewrite forallb_lt_true by (intros s Hs; specialize (Hall s Hs); lia).
  reflexivity.
Qed.

(** C10: [merge] looks only at the length of the first file set to
    choose between single-end and paired-end.  On an empty sequence, and
    on a sequence whose first set has two or more members while a later
    set has fewer than two, an index is out of range and [IndexError] is
    raised before anything is merged.  With a first set of one member,
    later sets are read at index 0 only, whatever their length. *)
Theorem merge_arity_unchecked (out_file : string) (config : Config) (w : World) :
  merge [] out_file config w = Raise IndexError w /\
  (forall first rest,
     (1 < length first)%nat ->
     (exists s, s ∈ rest /\ (length s < 2)%nat) ->
     merge (first :: rest) out_file config w = Raise IndexError w) /\
  (forall first rest,
     (1 < length first)%nat ->
     (forall s, s ∈ rest -> (2 <= length s)%nat) ->
     merge (first :: rest) out_file config w =
       (let path := splitext_plus out_file in
        let pair1_out_file := fst path +:+ "_R1" +:+ snd path in
        let pair2_out_file := fst path +:+ "_R2" +:+ snd path in
        _merge_list_fastqs (map (fun s => nth 0 s "") (first :: rest))
                           pair1_out_file config;;
        _merge_list_fastqs (map (fun s => nth 1 s "") (first :: rest))
                           pair2_out_file config;;
        ret (MergedPaired [pair1_out_file; pair2_out_file])) w) /\
  (forall first rest,
     length first = 1%nat ->
     (forall s, s ∈ rest -> (1 <= length s)%nat) ->
     merge (first :: rest) out_file config w =
       (let! out := _merge_list_fastqs (map (fun s => nth 0 s "") (first :: rest))
                                       out_file config in
        ret (MergedSingle out)) w).
Proof.
  split; [reflexivity |]. split; [| split].
  - intros first rest Hfirst [s [Hs Hshort]].
    unfold merge. unfold bind at 1. rewrite mapM_item.
    destruct (forallb (fun s0 => (0 <? length s0)%nat) (first :: rest));
      [| reflexivity].
    apply Nat.ltb_lt in Hfirst. rewrite Hfirst.
    unfold bind at 1. rewrite mapM_item.
    rewrite (forallb_false_elem _ (first :: rest) s); [reflexivity | |].
    + now apply list_elem_of_further.
    + apply Nat.ltb_ge. lia.
  - intros first rest Hfirst Hrest. now apply merge_paired_unfold.
  - intros first rest Hfirst Hrest.
    assert (Hall : forall s, s ∈ first :: rest -> (1 <= length s)%nat).
    { intros s Hs. apply elem_of_cons in Hs as [-> | Hs]; [lia | auto]. }
    unfold merge. unfold bind at 1. rewrite mapM_item.
    rewrite forallb_lt_true by (intros s Hs; specialize (Hall s Hs); lia).
    rewrite Hfirst. reflexivity.
Qed.

(** *** Staging *)

(** C2, as the code has it: the assertion at the entry of
    [get_fastq_files] is about the presence of the [files] entry.  When
    the entry is absent the call fails there, with nothing done; when the
    entry is an empty list the call returns the empty list, having run no
    per-file transform, and having created the gzip directory unless the
    reference has a [bowtie] index. *)
Theorem get_fastq_files_no_input (data : Data) (w : World) :
  (files data = None -> get_fastq_files data w = Raise AssertNoFiles w) /\
  (files data = Some [] ->
   get_fastq_files data w =
     Ok [] (if bool_decide ("bowtie" ∈ reference data) then w
            else record (Makedir (PosixPath.join (work_dir data) "fastq")) w)).
Proof.
  unfold get_fastq_files. split; intros ->; [reflexivity |].
  destruct (bool_decide ("bowtie" ∈ reference data)); reflexivity.
Qed.

(** *** What [_gzip_fastq] does, case by case *)

Lemma gzip_fastq_path_keep (in_file : string) (out_dir : option string) :
  gzip_fastq_converts in_file = false ->
  gzip_fastq_path in_file out_dir = in_file.
Proof.
  unfold gzip_fastq_converts, gzip_fastq_path, bzip_gzip_path,
    is_bzipped, is_gzipped.
  destruct (is_fastq in_file), (is_remote in_file), (compression in_file);
    cbn [andb negb]; try reflexivity; try discriminate.
  intros ->. reflexivity.
Qed.

Lemma gzip_fastq_unfold (in_file : string) (out_dir : option string) (w : World) :
  _gzip_fastq in_file out_dir w =
    if gzip_fastq_converts in_file then
      let gzipped_file := gzip_fastq_path in_file out_dir in
      let cmd := gzip_fastq_command in_file gzipped_file in
      if bool_decide (on_disk w gzipped_file) then Ok gzipped_file w
      else match fs w !! in_file with
           | Some bytes =>
               Ok gzipped_file
                  (set_fs (<[gzipped_file := gzip_fastq_codec in_file bytes]> (fs w))
                          (record cmd w))
           | None => Raise (CommandFailed cmd) (record cmd w)
           end
    else Ok in_file w.
Proof.
  unfold _gzip_fastq, _bzip_gzip, gzip_fastq_converts, gzip_fastq_path,
    bzip_gzip_path, gzip_fastq_command, gzip_fastq_codec, is_bzipped, is_gzipped.
  destruct (is_fastq in_file), (is_remote in_file) eqn:Hr,
    (compression in_file); cbn [andb negb]; try reflexivity.
  - unfold bind, file_exists, run_in_transaction, ret, on_disk.
    destruct (bool_decide _); [reflexivity |].
    destruct (fs w !! in_file); reflexivity.
  - destruct (is_fastq (fst (PosixPath.splitext in_file))); [| reflexivity].
    cbn [andb]. unfold bind, file_exists, run_in_transaction, ret, on_disk.
    destruct (bool_decide _); [reflexivity |].
    destruct (fs w !! in_file); reflexivity.
Qed.

Lemma gzip_fastq_returns (in_file : string) (out_dir : option string)
    (w w' : World) (p : string) :
  _gzip_fastq in_file out_dir w = Ok p w' -> p = gzip_fastq_path in_file out_dir.
Proof.
  rewrite gzip_fastq_unfold.
  destruct (gzip_fastq_converts in_file) eqn:Hc.
  - cbv zeta. destruct (bool_decide _); [congruence |].
    destruct (fs w !! in_file); [congruence | discriminate].
  - rewrite (gzip_fastq_path_keep _ _ Hc). congruence.
Qed.

Lemma mapM_Ok_inv {A B} (f : A -> M B) (x : A) (l : list A) w ys w2 :
  mapM f (x :: l) w = Ok ys w2 ->
  exists y w1 ys', f x w = Ok y w1 /\ mapM f l w1 = Ok ys' w2 /\ ys = y :: ys'.
Proof.
  cbn [mapM]. intros Hrun.
  apply bind_Ok_inv in Hrun as (y & w1 & Hx & Hrun).
  apply bind_Ok_inv in Hrun as (ys' & w1' & Hl & Hret).
  unfold ret in Hret. injection Hret as <- <-. eauto 6.
Qed.

Lemma mapM_gzip_fastq_returns (out_dir : option string) (l : list string)
    (w w' : World) (ps : list string) :
  mapM (fun x => _gzip_fastq x out_dir) l w = Ok ps w' ->
  ps = map (fun x => gzip_fastq_path x out_dir) l.
Proof.
  revert w ps. induction l as [|x l IH]; intros w ps Hrun.
  - cbn [mapM] in Hrun. unfold ret in Hrun. injection Hrun as <- <-. reflexivity.
  - apply mapM_Ok_inv in Hrun as (y & w1 & ys' & Hx & Hl & ->).
    cbn [map]. f_equal; [eapply gzip_fastq_returns; eauto | eauto].
Qed.

(** *** Reasoning about the log of commands *)

Lemma steps_refl (P : Event -> Prop) (w : World) : steps P w w.
Proof. exists []. split; [now rewrite app_nil_r | constructor]. Qed.

Lemma steps_trans (P : Event -> Prop) (w1 w2 w3 : World) :
  steps P w1 w2 -> steps P w2 w3 -> steps P w1 w3.
Proof.
  intros (n1 & H1 & F1) (n2 & H2 & F2). exists (n1 ++ n2). split.
  - rewrite H2, H1. now rewrite app_assoc.
  - apply Forall_app. split; assumption.
Qed.

Lemma steps_record (P : Event -> Prop) (e : Event) (w w' : World) :
  P e -> log w' = log (record e w) -> steps P w w'.
Proof.
  intros HP Hlog. exists [e]. split; [exact Hlog | repeat constructor; exact HP].
Qed.

Lemma traced_ret {A} (P : Event -> Prop) (a : A) : traced P (ret a).
Proof. intros w. apply steps_refl. Qed.

Lemma traced_raise {A} (P : Event -> Prop) (e : Exn) : traced P (@raise A e).
Proof. intros w. apply steps_refl. Qed.

Lemma traced_bind {A B} (P : Event -> Prop) (c : M A) (k : A -> M B) :
  traced P c -> (forall a, traced P (k a)) -> traced P (bind c k).
Proof.
  intros Hc Hk w. unfold bind. specialize (Hc w).
  destruct (c w) as [a w1 | e w1]; cbn [world_of] in *; [| exact Hc].
  eapply steps_trans; [exact Hc | apply Hk].
Qed.

Lemma traced_mapM {A B} (P : Event -> Prop) (f : A -> M B) (l : list A) :
  (forall x, traced P (f x)) -> traced P (mapM f l).
Proof.
  intros Hf. induction l as [|x l IH]; cbn [mapM]; [apply traced_ret |].
  apply traced_bind; [apply Hf |]. intros y.
  apply traced_bind; [exact IH |]. intros ys. apply traced_ret.
Qed.

Lemma traced_forM_ {A} (P : Event -> Prop) (f : A -> M unit) (l : list A) :
  (forall x, traced P (f x)) -> traced P (forM_ f l).
Proof.
  intros Hf. induction l as [|x l IH]; cbn [forM_]; [apply traced_ret |].
  apply traced_bind; [apply Hf | intros _; exact IH].
Qed.

Lemma traced_file_exists (P : Event -> Prop) (f : string) : traced P (file_exists f).
Proof. intros w. apply steps_refl. Qed.

Lemma traced_run_in_transaction (P : Event -> Prop) cmd out produce :
  P cmd -> traced P (run_in_transaction cmd out produce).
Proof.
  intros HP w. unfold run_in_transaction.
  destruct (produce (fs w)); cbn [world_of]; now apply (steps_record P cmd).
Qed.

Lemma traced_gzip_fastq (P : Event -> Prop) (in_file : string)
    (out_dir : option string) :
  (is_remote in_file = false -> forall e, event_inputs e = [in_file] -> P e) ->
  traced P (_gzip_fastq in_file out_dir).
Proof.
  intros HP w. rewrite gzip_fastq_unfold.
  destruct (gzip_fastq_converts in_file) eqn:Hc; [| apply steps_refl].
  assert (Hlocal : is_remote in_file = false).
  { unfold gzip_fastq_converts in Hc.
    destruct (is_remote in_file); [| reflexivity].
    rewrite andb_false_r in Hc. discriminate. }
  cbv zeta. destruct (bool_decide _); [apply steps_refl |].
  set (cmd := gzip_fastq_command _ _).
  assert (Hcmd : P cmd).
  { apply (HP Hlocal). unfold cmd, gzip_fastq_command.
    now destruct (is_bzipped in_file). }
  destruct (fs w !! in_file); cbn [world_of]; now apply (steps_record P cmd).
Qed.

Lemma traced_assert_exists (P : Event -> Prop) (in_file : string) :
  traced P (assert_exists in_file).
Proof.
  unfold assert_exists. destruct (negb (is_remote in_file)); [| apply traced_ret].
  apply traced_bind; [apply traced_file_exists |].
  intros [|]; [apply traced_ret | apply traced_raise].
Qed.

Lemma traced_stage_file (P : Event -> Prop) (data : Data)
    (ready_files : list (option string)) (fname : string) :
  (forall d, P (Makedir d)) ->
  (PyStr.endswith fname ".bam" = true ->
   _pipeline_needs_fastq (config data) data = true ->
   P (CallBamToFastq fname)) ->
  (is_remote fname = false -> forall d, P (CallGroom fname d)) ->
  traced P (stage_file data ready_files fname).
Proof.
  intros Hmk Hbam Hgroom. unfold stage_file.
  destruct (PyStr.endswith fname ".bam") eqn:Hext.
  - destruct (_pipeline_needs_fastq _ _) eqn:Hneeds; [| apply traced_ret].
    intros w. unfold convert_bam_to_fastq.
    destruct (prep_fastq_inputs _ _ _) as [[outs m]|]; cbn [world_of];
      apply (steps_record P (CallBamToFastq fname)); auto.
  - destruct (is_remote fname) eqn:Hr; [apply traced_ret |].
    destruct (_ && _); [| apply traced_ret].
    apply traced_bind.
    { intros w. unfold safe_makedir. cbn [world_of].
      now apply (steps_record P (Makedir (PosixPath.join (work_dir data) "fastq_convert"))). }
    intros d. apply traced_bind; [| intros o; apply traced_ret].
    intros w. unfold call_groom.
    destruct (groom _ _ _ _) as [[o m]|]; cbn [world_of];
      apply (steps_record P (CallGroom fname d)); auto.
Qed.

Lemma traced_stage_files (P : Event -> Prop) (data : Data)
    (fnames : list string) (ready_files : list (option string)) :
  (forall ready fname, traced P (stage_file data ready fname)) ->
  traced P (stage_files data ready_files fnames).
Proof.
  intros Hone. revert ready_files.
  induction fnames as [|x l IH]; intros ready; cbn [stage_files];
    [apply traced_ret |].
  apply traced_bind; [apply Hone | intros r; apply IH].
Qed.

Lemma traced_get_fastq_files (P : Event -> Prop) (data : Data) :
  (forall d, P (Makedir d)) ->
  (forall x, PyStr.endswith x ".bam" = true ->
             _pipeline_needs_fastq (config data) data = true ->
             P (CallBamToFastq x)) ->
  (forall x, is_remote x = false -> forall e, event_inputs e = [x] -> P e) ->
  traced P (get_fastq_files data).
Proof.
  intros Hmk Hbam Hlocal. unfold get_fastq_files.
  destruct (files data) as [fnames|]; [| apply traced_raise].
  apply traced_bind.
  { apply traced_stage_files. intros ready x.
    apply traced_stage_file; auto.
    intros Hx d. now apply (Hlocal x Hx). }
  intros ready. apply traced_bind.
  - destruct (bool_decide _); [apply traced_ret |].
    apply traced_bind.
    + intros w. unfold safe_makedir. cbn [world_of].
      now apply (steps_record P (Makedir (PosixPath.join (work_dir data) "fastq"))).
    + intros d. apply traced_mapM. intros x. apply traced_gzip_fastq.
      apply Hlocal.
  - intros ready'. apply traced_bind; [| intros _; apply traced_ret].
    apply traced_forM_. intros x. apply traced_assert_exists.
Qed.

(** *** The per-file loop *)

Lemma stage_files_app (data : Data) (l1 l2 : list string)
    (ready : list (option string)) (w : World) :
  stage_files data ready (l1 ++ l2) w =
    (let! r := stage_files data ready l1 in stage_files data r l2) w.
Proof.
  revert ready w. induction l1 as [|x l1 IH]; intros ready w; [reflexivity |].
  cbn [app stage_files]. unfold bind. cbv beta.
  destruct (stage_file data ready x w) as [r w1 | e w1]; [| reflexivity].
  rewrite IH. reflexivity.
Qed.

Lemma stage_file_appends (data : Data) (ready r : list (option string))
    (x : string) (w w' : World) :
  PyStr.endswith x ".bam" = false ->
  stage_file data ready x w = Ok r w' ->
  exists o, r = ready ++ [o] /\ (is_remote x = true -> o = Some x /\ w' = w).
Proof.
  intros Hext. unfold stage_file. rewrite Hext.
  destruct (is_remote x).
  - unfold ret. intros [= <- <-]. eauto.
  - destruct (_ && _).
    + intros Hrun.
      apply bind_Ok_inv in Hrun as (d & w1 & _ & Hrun).
      apply bind_Ok_inv in Hrun as (o & w2 & _ & Hret).
      unfold ret in Hret. injection Hret as <- <-.
      exists o. split; [reflexivity | discriminate].
    + unfold ret. intros [= <- <-]. exists (Some x).
      split; [reflexivity | discriminate].
Qed.

Lemma stage_files_extends (data : Data) (l : list string)
    (ready r : list (option string)) (w w' : World) :
  (forall x, x ∈ l -> PyStr.endswith x ".bam" = false) ->
  stage_files data ready l w = Ok r w' ->
  exists more, r = ready ++ more.
Proof.
  revert ready w. induction l as [|x l IH]; intros ready w Hext.
  - cbn [stage_files]. unfold ret. intros [= <- <-].
    exists []. now rewrite app_nil_r.
  - cbn [stage_files]. intros Hrun.
    apply bind_Ok_inv in Hrun as (r1 & w1 & Hx & Hrest).
    apply stage_file_appends in Hx as (o & -> & _);
      [| apply Hext; apply list_elem_of_here].
    apply IH in Hrest as (more & ->);
      [| intros y Hy; apply Hext; now apply list_elem_of_further].
    exists (o :: more). now rewrite <- app_assoc.
Qed.

Lemma stage_file_remote (data : Data) (ready : list (option string))
    (f : string) (w : World) :
  is_remote f = true ->
  PyStr.endswith f ".bam" = false \/
    _pipeline_needs_fastq (config data) data = false ->
  exists pre, stage_file data ready f w = Ok (pre ++ [Some f]) w.
Proof.
  intros Hr Hcase. unfold stage_file.
  destruct (PyStr.endswith f ".bam") eqn:Hext.
  - destruct Hcase as [Habs | Hneeds]; [discriminate |].
    rewrite Hneeds. exists []. reflexivity.
  - rewrite Hr. exists ready. reflexivity.
Qed.

Lemma stage_files_keeps_remote (data : Data) (before after : list string)
    (f : string) (ready r : list (option string)) (w w' : World) :
  is_remote f = true ->
  PyStr.endswith f ".bam" = false \/
    _pipeline_needs_fastq (config data) data = false ->
  (forall x, x ∈ after -> PyStr.endswith x ".bam" = false) ->
  stage_files data ready (before ++ f :: after) w = Ok r w' ->
  Some f ∈ r.
Proof.
  intros Hr Hcase Hafter. rewrite stage_files_app. intros Hrun.
  apply bind_Ok_inv in Hrun as (r0 & w0 & _ & Hrun).
  cbn [stage_files] in Hrun.
  apply bind_Ok_inv in Hrun as (r1 & w1 & Hf & Hrest).
  destruct (stage_file_remote data r0 f w0 Hr Hcase) as (pre & Hstep).
  rewrite Hstep in Hf. injection Hf as <- <-.
  apply stage_files_extends in Hrest as (more & ->); [| exact Hafter].
  rewrite !elem_of_app. left. right. apply list_elem_of_here.
Qed.

Lemma stage_files_all_remote (data : Data) (l : list string)
    (ready : list (option string)) (w : World) :
  (forall x, x ∈ l -> is_remote x = true /\ PyStr.endswith x ".bam" = false) ->
  stage_files data ready l w = Ok (ready ++ map Some l) w.
Proof.
  revert ready. induction l as [|x l IH]; intros ready Hall.
  - cbn. now rewrite app_nil_r.
  - cbn [stage_files map]. destruct (Hall x (list_elem_of_here _ _)) as [Hr Hext].
    unfold bind, stage_file. rewrite Hext, Hr. unfold ret at 1.
    rewrite IH by (intros y Hy; apply Hall; now apply list_elem_of_further).
    now rewrite <- app_assoc.
Qed.

Lemma omap_id_Some {A} (l : list A) : omap id (map Some l) = l.
Proof. induction l as [|x l IH]; [reflexivity |]. cbn. now rewrite IH. Qed.

Lemma mapM_gzip_fastq_remote (out_dir : option string) (l : list string) (w : World) :
  (forall x, x ∈ l -> is_remote x = true) ->
  mapM (fun x => _gzip_fastq x out_dir) l w = Ok l w.
Proof.
  induction l as [|x l IH]; intros Hall; [reflexivity |].
  cbn [mapM]. unfold bind at 1.
  rewrite gzip_fastq_remote by (apply Hall; apply list_elem_of_here).
  unfold bind at 1.
  rewrite IH by (intros y Hy; apply Hall; now apply list_elem_of_further).
  reflexivity.
Qed.

Lemma forM_assert_exists_remote (l : list string) (w : World) :
  (forall x, x ∈ l -> is_remote x = true) ->
  forM_ assert_exists l w = Ok tt w.
Proof.
  induction l as [|x l IH]; intros Hall; [reflexivity |].
  cbn [forM_]. unfold bind, assert_exists.
  rewrite (Hall x (list_elem_of_here _ _)). cbn [negb]. unfold ret at 1.
  apply IH. intros y Hy. apply Hall. now apply list_elem_of_further.
Qed.

Lemma get_fastq_files_Ok_inv (data : Data) (fnames res : list string) (w w' : World) :
  files data = Some fnames ->
  get_fastq_files data w = Ok res w' ->
  exists ready w1,
    stage_files data [] fnames w = Ok ready w1 /\
    res = if bool_decide (needs_uncompressed data) then omap id ready
          else map (fun x => gzip_fastq_path x
                               (Some (PosixPath.join (work_dir data) "fastq")))
                   (omap id ready).
Proof.
  intros Hfiles. unfold get_fastq_files, needs_uncompressed. rewrite Hfiles.
  intros Hrun.
  apply bind_Ok_inv in Hrun as (ready & w1 & Hstage & Hrun).
  exists ready, w1. split; [exact Hstage |].
  apply bind_Ok_inv in Hrun as (zipped & w2 & Hzip & Hrun).
  apply bind_Ok_inv in Hrun as (u & w3 & _ & Hret).
  unfold ret in Hret. injection Hret as <- <-.
  destruct (bool_decide _).
  - unfold ret in Hzip. congruence.
  - apply bind_Ok_inv in Hzip as (d & w2' & Hmk & Hzip).
    unfold safe_makedir in Hmk. injection Hmk as <- <-.
    now apply mapM_gzip_fastq_returns in Hzip.
Qed.

(** C4, as the code has it.  Let [f] be a remote input that is not a
    [.bam] file in need of conversion: its name does not end in [.bam],
    or the aligner of the batch reads BAM (or there is none).  Then no
    command or conversion of the staging run has [f] as its input.  If
    no input after [f] is a [.bam] file, [f] itself is in the result
    whenever staging returns; and a batch made only of remote files that
    are not [.bam] files is returned as it is, with no effect other than
    the creation of the gzip directory. *)
Theorem remote_input_passes_through (f : string) (data : Data) :
  is_remote f = true ->
  PyStr.endswith f ".bam" = false \/
    _pipeline_needs_fastq (config data) data = false ->
  (forall w,
     steps (fun e => f ∉ event_inputs e) w (world_of (get_fastq_files data w))) /\
  (forall w before after res w',
     files data = Some (before ++ f :: after) ->
     (forall x, x ∈ after -> PyStr.endswith x ".bam" = false) ->
     get_fastq_files data w = Ok res w' ->
     f ∈ res) /\
  (forall w fnames,
     files data = Some fnames ->
     (forall x, x ∈ fnames ->
                is_remote x = true /\ PyStr.endswith x ".bam" = false) ->
     get_fastq_files data w =
       Ok fnames
          (if bool_decide (needs_uncompressed data) then w
           else record (Makedir (PosixPath.join (work_dir data) "fastq")) w)).
Proof.
  intros Hr Hcase. split; [| split].
  - apply traced_get_fastq_files.
    + intros d. cbn. apply not_elem_of_nil.
    + intros x Hx Hneeds. cbn. intros Hin. apply list_elem_of_singleton in Hin.
      subst x. destruct Hcase; congruence.
    + intros x Hx e He. rewrite He. intros Hin.
      apply list_elem_of_singleton in Hin. subst x. congruence.
  - intros w before after res w' Hfiles Hafter Hrun.
    destruct (get_fastq_files_Ok_inv _ _ _ _ _ Hfiles Hrun)
      as (ready & w1 & Hstage & ->).
    assert (Hready : f ∈ omap id ready).
    { apply list_elem_of_omap. exists (Some f). split; [| reflexivity].
      eapply stage_files_keeps_remote; eauto. }
    destruct (bool_decide _); [exact Hready |].
    apply list_elem_of_fmap. exists f. split; [| exact Hready].
    symmetry. apply gzip_fastq_path_keep.
    unfold gzip_fastq_converts. rewrite Hr. cbn [negb].
    now rewrite andb_false_r.
  - intros w fnames Hfiles Hall.
    unfold get_fastq_files, needs_uncompressed. rewrite Hfiles.
    unfold bind at 1. rewrite stage_files_all_remote by exact Hall.
    cbn [app]. rewrite omap_id_Some.
    assert (Hrem : forall x, x ∈ fnames -> is_remote x = true)
      by (intros x Hx; now destruct (Hall x Hx)).
    destruct (bool_decide _).
    + unfold bind, ret. rewrite forM_assert_exists_remote by exact Hrem.
      reflexivity.
    + unfold bind, safe_makedir.
      rewrite mapM_gzip_fastq_remote by exact Hrem.
      rewrite forM_assert_exists_remote by exact Hrem. reflexivity.
Qed.

Lemma forM_assert_exists_Ok (l : list string) (w w' : World) (u : unit) :
  forM_ assert_exists l w = Ok u w' -> w' = w.
Proof.
  revert w. induction l as [|x l IH]; intros w.
  - cbn [forM_]. unfold ret. congruence.
  - cbn [forM_]. intros Hrun.
    apply bind_Ok_inv in Hrun as (v & w1 & Hx & Hrest).
    apply IH in Hrest. subst w'.
    unfold assert_exists in Hx. destruct (negb (is_remote x)).
    + apply bind_Ok_inv in Hx as (b & w2 & Hq & Hx).
      unfold path_exists, file_exists in Hq. injection Hq as <- <-.
      destruct (bool_decide _); [unfold ret in Hx; congruence | discriminate].
    + unfold ret in Hx. congruence.
Qed.

(** C5, as the code has it: once the per-file loop has produced its
    list and the null entries are dropped, what follows depends on one
    test made on the whole batch, and the test is on the keys of
    [data['reference']], not on the configured aligner.  If the
    reference has a [bowtie] key, nothing is compressed: the remaining
    files are only checked for existence, and a run that returns returns
    them in the world the loop left.  Otherwise the gzip directory
    [work_dir/fastq] is created and every remaining file goes through
    [_gzip_fastq] with that directory, so the result lists, file by
    file, the gzip path of each.  Two batches that leave the loop with
    the same list in the same world, and have the same reference keys
    and working directory, end alike whatever their aligner and their
    other settings are. *)
Theorem gzip_decided_per_batch
    (data : Data) (w : World) (fnames : list string)
    (ready : list (option string)) (w1 : World) :
  files data = Some fnames ->
  stage_files data [] fnames w = Ok ready w1 ->
  let kept := omap id ready in
  let out_dir := PosixPath.join (work_dir data) "fastq" in
  ("bowtie" ∈ reference data ->
   get_fastq_files data w = (forM_ assert_exists kept;; ret kept) w1 /\
   forall res w',
     get_fastq_files data w = Ok res w' -> res = kept /\ w' = w1) /\
  ("bowtie" ∉ reference data ->
   get_fastq_files data w =
     (let! zipped := mapM (fun x => _gzip_fastq x (Some out_dir)) kept in
      forM_ assert_exists zipped;; ret zipped) (record (Makedir out_dir) w1) /\
   forall res w',
     get_fastq_files data w = Ok res w' ->
     res = map (fun x => gzip_fastq_path x (Some out_dir)) kept) /\
  (forall data2 w2 fnames2,
     files data2 = Some fnames2 ->
     stage_files data2 [] fnames2 w2 = Ok ready w1 ->
     reference data2 = reference data ->
     work_dir data2 = work_dir data ->
     get_fastq_files data2 w2 = get_fastq_files data w).
Proof.
  intros Hfiles Hstage kept out_dir. split; [| split].
  - intros Hbowtie.
    assert (Hrun : get_fastq_files data w
                   = (forM_ assert_exists kept;; ret kept) w1).
    { unfold get_fastq_files. rewrite Hfiles.
      unfold bind at 1. rewrite Hstage.
      rewrite bool_decide_eq_true_2 by exact Hbowtie. reflexivity. }
    split; [exact Hrun |].
    intros res w'. rewrite Hrun. intros Hok.
    apply bind_Ok_inv in Hok as (u & w2 & Hcheck & Hret).
    unfold ret in Hret. injection Hret as <- <-.
    split; [reflexivity |]. exact (forM_assert_exists_Ok _ _ _ _ Hcheck).
  - intros Hnot. split.
    + unfold get_fastq_files. rewrite Hfiles.
      unfold bind at 1. rewrite Hstage.
      rewrite bool_decide_eq_false_2 by exact Hnot. reflexivity.
    + intros res w' Hrun.
      destruct (get_fastq_files_Ok_inv _ _ _ _ _ Hfiles Hrun)
        as (ready' & w1' & Hstage' & ->).
      rewrite Hstage in Hstage'. injection Hstage' as <- <-.
      unfold needs_uncompressed.
      rewrite bool_decide_eq_false_2 by exact Hnot. reflexivity.
  - intros data2 w2 fnames2 Hfiles2 Hstage2 Href Hwork.
    unfold get_fastq_files. rewrite Hfiles, Hfiles2.
    unfold bind at 1. rewrite Hstage2. symmetry.
    unfold bind at 1. rewrite Hstage. rewrite Href, Hwork. reflexivity.
Qed.

Lemma stage_file_bam_resets (data : Data) (ready : list (option string))
    (fname : string) (w : World) :
  PyStr.endswith fname ".bam" = true ->
  _pipeline_needs_fastq (config data) data = false ->
  stage_file data ready fname w = Ok [Some fname] w.
Proof. intros Hext Hneeds. unfold stage_file. now rewrite Hext, Hneeds. Qed.

(** *** The file system through gzip normalization *)

Lemma gzip_fastq_fs_mono (m : gmap string string) (f p c : string) :
  m !! p = Some c -> gzip_fastq_fs m f !! p = Some c.
Proof.
  intros Hp. unfold gzip_fastq_fs.
  destruct (gzip_fastq_converts f); [| exact Hp].
  destruct (m !! normalised_path f) eqn:Ht; [exact Hp |].
  destruct (m !! f); [| exact Hp].
  rewrite lookup_insert_ne; [exact Hp | congruence].
Qed.

Lemma gzip_fastq_fs_other (m : gmap string string) (f p : string) :
  p <> normalised_path f -> gzip_fastq_fs m f !! p = m !! p.
Proof.
  intros Hp. unfold gzip_fastq_fs.
  destruct (gzip_fastq_converts f); [| reflexivity].
  destruct (m !! normalised_path f); [reflexivity |].
  destruct (m !! f); [| reflexivity].
  now rewrite lookup_insert_ne by congruence.
Qed.

Lemma gzip_fastq_fs_path (m : gmap string string) (f : string) :
  is_Some (m !! f) ->
  gzip_fastq_fs m f !! normalised_path f = normalised_bytes m f.
Proof.
  intros [b Hb]. unfold gzip_fastq_fs, normalised_bytes.
  destruct (gzip_fastq_converts f) eqn:Hc.
  - destruct (m !! normalised_path f) eqn:Ht; [now rewrite Ht |].
    rewrite Hb. cbn. now rewrite lookup_insert_eq.
  - unfold normalised_path. rewrite (gzip_fastq_path_keep _ _ Hc).
    now rewrite Hb.
Qed.

Lemma gzip_fastq_fs_normalised (m : gmap string string) (f g : string) :
  is_Some (m !! g) ->
  normalised_path g <> normalised_path f ->
  normalised_bytes (gzip_fastq_fs m f) g = normalised_bytes m g.
Proof.
  intros [b Hb] Hne. unfold normalised_bytes.
  rewrite (gzip_fastq_fs_other m f (normalised_path g) Hne).
  destruct (m !! normalised_path g); [reflexivity |].
  now rewrite (gzip_fastq_fs_mono m f g b Hb), Hb.
Qed.

Lemma gzip_fastq_all_fs_mono (l : list string) (m : gmap string string) (p c : string) :
  m !! p = Some c -> gzip_fastq_all_fs m l !! p = Some c.
Proof.
  revert m. induction l as [|f l IH]; intros m Hp; [exact Hp |].
  cbn [gzip_fastq_all_fs]. apply IH. now apply gzip_fastq_fs_mono.
Qed.

Lemma gzip_fastq_all_fs_other (l : list string) (m : gmap string string) (p : string) :
  p ∉ map normalised_path l -> gzip_fastq_all_fs m l !! p = m !! p.
Proof.
  revert m. induction l as [|f l IH]; intros m Hp; [reflexivity |].
  cbn [gzip_fastq_all_fs map] in *. apply not_elem_of_cons in Hp as [Hne Hp].
  rewrite IH by exact Hp. now apply gzip_fastq_fs_other.
Qed.

Lemma gzip_fastq_all_fs_path (l : list string) (m : gmap string string) (f : string) :
  f ∈ l ->
  (forall g, g ∈ l -> is_Some (m !! g)) ->
  (forall g1 g2, g1 ∈ l -> g2 ∈ l ->
                 normalised_path g1 = normalised_path g2 -> g1 = g2) ->
  gzip_fastq_all_fs m l !! normalised_path f = normalised_bytes m f.
Proof.
  revert m. induction l as [|x l IH]; intros m Hin Hdisk Hinj.
  - now apply elem_of_nil in Hin.
  - cbn [gzip_fastq_all_fs].
    destruct (decide (f = x)) as [-> | Hfx].
    + destruct (Hdisk x (list_elem_of_here _ _)) as [b Hb].
      assert (Hsome : is_Some (normalised_bytes m x)).
      { unfold normalised_bytes. destruct (m !! normalised_path x); [eauto |].
        rewrite Hb. cbn. eauto. }
      destruct Hsome as [c Hc]. rewrite Hc.
      apply gzip_fastq_all_fs_mono.
      rewrite gzip_fastq_fs_path by eauto. exact Hc.
    + apply elem_of_cons in Hin as [Heq | Hin]; [contradiction |].
      assert (Hf : is_Some (m !! f))
        by (apply Hdisk; now apply list_elem_of_further).
      rewrite IH.
      * apply gzip_fastq_fs_normalised; [exact Hf |].
        intros Heq. apply Hfx. apply Hinj; auto;
          [now apply list_elem_of_further | apply list_elem_of_here].
      * exact Hin.
      * intros g Hg. destruct (Hdisk g (list_elem_of_further _ _ _ Hg)) as [b Hb].
        exists b. now apply gzip_fastq_fs_mono.
      * intros g1 g2 H1 H2. apply Hinj; now apply list_elem_of_further.
Qed.

Lemma mapM_gzip_fastq_fs (l : list string) (w : World) :
  (forall f, f ∈ l -> on_disk w f) ->
  exists w',
    mapM (fun fn => _gzip_fastq fn None) l w = Ok (map normalised_path l) w' /\
    fs w' = gzip_fastq_all_fs (fs w) l.
Proof.
  revert w. induction l as [|x l IH]; intros w Hdisk.
  - exists w. split; reflexivity.
  - destruct (Hdisk x (list_elem_of_here _ _)) as [b Hb].
    assert (Hx : exists w1, _gzip_fastq x None w = Ok (normalised_path x) w1 /\
                            fs w1 = gzip_fastq_fs (fs w) x).
    { rewrite gzip_fastq_unfold. unfold gzip_fastq_fs, normalised_path.
      destruct (gzip_fastq_converts x) eqn:Hc.
      - cbv zeta. unfold on_disk.
        destruct (fs w !! gzip_fastq_path x None) eqn:Ht.
        + rewrite bool_decide_eq_true_2 by eauto. eauto.
        + rewrite bool_decide_eq_false_2 by apply is_Some_None.
          rewrite Hb. eexists. split; reflexivity.
      - rewrite (gzip_fastq_path_keep _ _ Hc). eauto. }
    destruct Hx as (w1 & Hrun & Hfs).
    destruct (IH w1) as (w' & Hrest & Hfs').
    { intros f Hf. destruct (Hdisk f (list_elem_of_further _ _ _ Hf)) as [c Hc].
      exists c. rewrite Hfs. now apply gzip_fastq_fs_mono. }
    exists w'. split.
    + cbn [mapM map]. unfold bind at 1. rewrite Hrun.
      unfold bind at 1. rewrite Hrest. reflexivity.
    + cbn [gzip_fastq_all_fs]. now rewrite Hfs', Hfs.
Qed.

(** *** Merging into a fresh output *)

Lemma append_empty_r (s : string) : s +:+ "" = s.
Proof.
  induction s as [|a s IH]; [reflexivity |].
  change (String a (s +:+ "") = String a s). now rewrite IH.
Qed.

Lemma append_cancel_l (p s t : string) : p +:+ s = p +:+ t -> s = t.
Proof.
  induction p as [|a p IH]; [auto |].
  change (String a (p +:+ s) = String a (p +:+ t) -> s = t).
  intros Heq. injection Heq as Heq. auto.
Qed.

Lemma paired_out_differ (out_file : string) :
  paired_out "_R1" out_file <> paired_out "_R2" out_file.
Proof.
  unfold paired_out. intros Heq. apply append_cancel_l in Heq.
  cbn in Heq. discriminate.
Qed.

Lemma normalised_bytes_on_disk (m : gmap string string) (f : string) :
  is_Some (m !! f) -> is_Some (normalised_bytes m f).
Proof.
  intros [b Hb]. unfold normalised_bytes.
  destruct (m !! normalised_path f); [eauto |]. rewrite Hb. cbn. eauto.
Qed.

Lemma normalised_cat_on_disk (m : gmap string string) (l : list string) :
  (forall f, f ∈ l -> is_Some (m !! f)) -> is_Some (normalised_cat m l).
Proof.
  induction l as [|f l IH]; intros Hdisk; cbn [normalised_cat]; [eauto |].
  destruct (normalised_bytes_on_disk m f) as [c ->];
    [apply Hdisk, list_elem_of_here |].
  destruct IH as [cs ->]; [| eauto].
  intros g Hg. apply Hdisk. now apply list_elem_of_further.
Qed.

Lemma cat_normalised (m m' : gmap string string) (l : list string) :
  (forall f, f ∈ l -> m' !! normalised_path f = normalised_bytes m f) ->
  cat m' (map normalised_path l) = normalised_cat m l.
Proof.
  induction l as [|f l IH]; intros Hl; [reflexivity |].
  cbn [map cat normalised_cat].
  rewrite (Hl f (list_elem_of_here _ _)).
  rewrite IH by (intros g Hg; apply Hl; now apply list_elem_of_further).
  reflexivity.
Qed.

Lemma normalised_cat_agree (m m' : gmap string string) (l : list string) :
  (forall f, f ∈ l -> m' !! f = m !! f /\
                      m' !! normalised_path f = m !! normalised_path f) ->
  normalised_cat m' l = normalised_cat m l.
Proof.
  induction l as [|f l IH]; intros Hl; [reflexivity |].
  cbn [normalised_cat].
  destruct (Hl f (list_elem_of_here _ _)) as [Hf Hp].
  unfold normalised_bytes. rewrite Hf, Hp.
  rewrite IH by (intros g Hg; apply Hl; now apply list_elem_of_further).
  reflexivity.
Qed.

Lemma distinct_normal_forms_elim (l : list string) (g1 g2 : string) :
  distinct_normal_forms l -> g1 ∈ l -> g2 ∈ l ->
  normalised_path g1 = normalised_path g2 -> g1 = g2.
Proof.
  unfold distinct_normal_forms. rewrite Forall_forall. intros Hd H1 H2.
  specialize (Hd g1 H1). rewrite Forall_forall in Hd. exact (Hd g2 H2).
Qed.

Lemma normal_forms_apart_elim (l1 l2 : list string) (a b : string) :
  normal_forms_apart l1 l2 -> a ∈ l1 -> b ∈ l2 ->
  normalised_path a <> b /\ normalised_path a <> normalised_path b.
Proof.
  unfold normal_forms_apart. rewrite Forall_forall. intros Hd H1 H2.
  specialize (Hd a H1). rewrite Forall_forall in Hd. exact (Hd b H2).
Qed.

Lemma merge_list_fresh
    (inputs : list string) (out_file : string) (config : Config) (w : World) :
  (forall f, f ∈ inputs -> is_fastq f = true) ->
  (forall f, f ∈ inputs -> on_disk w f) ->
  fs w !! out_file = None ->
  distinct_normal_forms inputs ->
  exists w' bytes,
    _merge_list_fastqs inputs out_file config w = Ok out_file w' /\
    normalised_cat (fs w) inputs = Some bytes /\
    fs w' !! out_file = Some bytes /\
    (forall p, p <> out_file -> p ∉ map normalised_path inputs ->
               fs w' !! p = fs w !! p).
Proof.
  intros Hfq Hdisk Hout Hdistinct.
  destruct (normalised_cat_on_disk (fs w) inputs Hdisk) as [bytes Hbytes].
  destruct (mapM_gzip_fastq_fs inputs w Hdisk) as (wn & Hzip & Hfs).
  assert (Hcat : cat (fs wn) (map normalised_path inputs) = Some bytes).
  { rewrite <- Hbytes. apply cat_normalised. intros f Hf. rewrite Hfs.
    apply gzip_fastq_all_fs_path; [exact Hf | exact Hdisk |].
    intros g1 g2. now apply distinct_normal_forms_elim. }
  assert (Hframe : forall p, p ∉ map normalised_path inputs ->
                             fs wn !! p = fs w !! p).
  { intros p Hp. rewrite Hfs. now apply gzip_fastq_all_fs_other. }
  unfold _merge_list_fastqs.
  rewrite (forallb_true_elem _ _ Hfq). cbn [negb].
  rewrite (bind_Ok _ _ _ _ _ (mapM_file_exists inputs w)).
  rewrite (all_present_true inputs w Hdisk). cbn [negb].
  unfold bind at 1. unfold file_exists at 1.
  rewrite bool_decide_eq_false_2 by (rewrite Hout; apply is_Some_None).
  cbn [negb]. unfold bind at 1. rewrite Hzip.
  destruct (length (map normalised_path inputs) =? 1)%nat eqn:Hlen.
  - apply Nat.eqb_eq in Hlen. rewrite length_map in Hlen.
    destruct inputs as [|a [|b rest]]; try discriminate.
    cbn [map] in *. cbn [cat] in Hcat.
    destruct (fs wn !! normalised_path a) as [c|] eqn:Hc; [| discriminate].
    rewrite append_empty_r in Hcat. injection Hcat as ->.
    unfold bind, shutil_move. rewrite Hc.
    eexists. exists bytes. split; [reflexivity |].
    split; [exact Hbytes |]. cbn [fs set_fs record]. split.
    + apply lookup_insert_eq.
    + intros p Hp Hnot. apply not_elem_of_cons in Hnot as [Hpa _].
      rewrite lookup_insert_ne by congruence.
      rewrite lookup_delete_ne by congruence.
      apply Hframe. apply not_elem_of_cons. split; [exact Hpa |].
      apply not_elem_of_nil.
  - unfold bind, run_in_transaction. rewrite Hcat.
    eexists. exists bytes. split; [reflexivity |].
    split; [exact Hbytes |]. cbn [fs set_fs record]. split.
    + apply lookup_insert_eq.
    + intros p Hp Hnot. rewrite lookup_insert_ne by congruence.
      now apply Hframe.
Qed.

Lemma normalised_cat_gzipped (m : gmap string string) (l : list string) :
  (forall f, f ∈ l -> is_gzipped f = true) ->
  normalised_cat m l = cat m l.
Proof.
  induction l as [|f l IH]; intros Hgz; [reflexivity |].
  cbn [normalised_cat cat].
  rewrite IH by (intros g Hg; apply Hgz; now apply list_elem_of_further).
  assert (Hsame : normalised_bytes m f = m !! f).
  { unfold normalised_bytes, normalised_path.
    rewrite gzip_fastq_path_keep.
    - now destruct (m !! f).
    - unfold gzip_fastq_converts.
      specialize (Hgz f (list_elem_of_here _ _)). unfold is_gzipped in Hgz.
      destruct (compression f); try discriminate. apply andb_false_r. }
  now rewrite Hsame.
Qed.

(** C6, as the code has it.  Take a non-empty sequence of file sets of
    two members each, all of them read-format files on disk, with
    neither output path on disk, and with files that do not collide:
    different files of one mate have different gzip-normalised paths, no
    normalised path of a first mate is a second mate or its normalised
    path, and an output path is not the normalised path of a file of the
    other mate.  Then [merge] returns the two paths made from the
    template with [_R1] and [_R2] before the extension, and each of them
    then holds the concatenation, in the order of the sets, of the
    gzip-normalised forms of its mate; when every input is gzip-compressed
    already, that is the concatenation of the inputs themselves. *)
Theorem merge_paired_concatenates
    (sets : list (list string)) (out_file : string) (config : Config) (w : World) :
  let pair1 := mate 0 sets in
  let pair2 := mate 1 sets in
  let out1 := paired_out "_R1" out_file in
  let out2 := paired_out "_R2" out_file in
  sets <> [] ->
  Forall (fun s => length s = 2%nat) sets ->
  Forall (fun f => is_fastq f = true /\ on_disk w f) (pair1 ++ pair2) ->
  fs w !! out1 = None ->
  fs w !! out2 = None ->
  out1 ∉ map normalised_path pair2 ->
  out2 ∉ map normalised_path pair1 ->
  distinct_normal_forms pair1 ->
  distinct_normal_forms pair2 ->
  normal_forms_apart pair1 pair2 ->
  exists w' bytes1 bytes2,
    merge sets out_file config w = Ok (MergedPaired [out1; out2]) w' /\
    normalised_cat (fs w) pair1 = Some bytes1 /\
    normalised_cat (fs w) pair2 = Some bytes2 /\
    fs w' !! out1 = Some bytes1 /\
    fs w' !! out2 = Some bytes2 /\
    (Forall (fun f => is_gzipped f = true) (pair1 ++ pair2) ->
     cat (fs w) pair1 = Some bytes1 /\ cat (fs w) pair2 = Some bytes2).
Proof.
  intros pair1 pair2 out1 out2 Hne Hlen Hok Hout1 Hout2 Hfresh1 Hfresh2
    Hd1 Hd2 Hapart.
  rewrite Forall_forall in Hlen. rewrite Forall_forall in Hok.
  assert (Hok1 : forall f, f ∈ pair1 -> is_fastq f = true /\ on_disk w f)
    by (intros f Hf; apply Hok, elem_of_app; now left).
  assert (Hok2 : forall f, f ∈ pair2 -> is_fastq f = true /\ on_disk w f)
    by (intros f Hf; apply Hok, elem_of_app; now right).
  destruct (merge_list_fresh pair1 out1 config w)
    as (w1 & bytes1 & Hrun1 & Hcat1 & Hat1 & Hframe1);
    [intros f Hf; apply (Hok1 f Hf) | intros f Hf; apply (Hok1 f Hf)
     | exact Hout1 | exact Hd1 |].
  assert (Hkeep : forall b, b ∈ pair2 ->
            fs w1 !! b = fs w !! b /\
            fs w1 !! normalised_path b = fs w !! normalised_path b).
  { intros b Hb. split; apply Hframe1.
    - destruct (Hok2 b Hb) as [_ [c Hc]]. congruence.
    - intros Hin. apply list_elem_of_fmap in Hin as (a & Heq & Ha).
      destruct (normal_forms_apart_elim _ _ a b Hapart Ha Hb) as [Hab _].
      congruence.
    - intros Heq. apply Hfresh1. rewrite <- Heq.
      apply list_elem_of_fmap. eauto.
    - intros Hin. apply list_elem_of_fmap in Hin as (a & Heq & Ha).
      destruct (normal_forms_apart_elim _ _ a b Hapart Ha Hb) as [_ Hab].
      congruence. }
  destruct (merge_list_fresh pair2 out2 config w1)
    as (w2 & bytes2 & Hrun2 & Hcat2 & Hat2 & Hframe2).
  { intros f Hf. apply (Hok2 f Hf). }
  { intros f Hf. destruct (Hok2 f Hf) as [_ [c Hc]]. exists c.
    destruct (Hkeep f Hf) as [-> _]. exact Hc. }
  { rewrite Hframe1; [exact Hout2 | | exact Hfresh2].
    intros Heq. apply (paired_out_differ out_file). now symmetry. }
  { exact Hd2. }
  rewrite (normalised_cat_agree (fs w) (fs w1) pair2 Hkeep) in Hcat2.
  exists w2, bytes1, bytes2.
  split; [| split; [exact Hcat1 | split; [exact Hcat2 | split; [| split]]]].
  - destruct sets as [|first rest]; [contradiction |].
    rewrite merge_paired_unfold.
    + fold pair1 pair2 out1 out2. unfold bind. rewrite Hrun1, Hrun2. reflexivity.
    + rewrite (Hlen first (list_elem_of_here _ _)). lia.
    + intros s Hs. rewrite (Hlen s); [lia | now apply list_elem_of_further].
  - rewrite Hframe2; [exact Hat1 | apply paired_out_differ | exact Hfresh1].
  - exact Hat2.
  - intros Hgz. rewrite Forall_forall in Hgz. split.
    + rewrite <- Hcat1. symmetry. apply normalised_cat_gzipped.
      intros f Hf. apply Hgz, elem_of_app. now left.
    + rewrite <- Hcat2. symmetry. apply normalised_cat_gzipped.
      intros f Hf. apply Hgz, elem_of_app. now right.
Qed.

(** ** Further properties of the module *)

(** *** [_gzip_fastq] and [_bzip_gzip] on their own *)

Lemma gzip_fastq_world_mono (in_file : string) (out_dir : option string)
    (w : World) (q c : string) :
  fs w !! q = Some c ->
  fs (world_of (_gzip_fastq in_file out_dir w)) !! q = Some c.
Proof.
  intros Hq. rewrite gzip_fastq_unfold.
  destruct (gzip_fastq_converts in_file); [| exact Hq]. cbv zeta.
  destruct (bool_decide (on_disk w (gzip_fastq_path in_file out_dir))) eqn:Hthere;
    [exact Hq |].
  apply bool_decide_eq_false_1 in Hthere.
  destruct (fs w !! in_file); cbn [world_of fs set_fs record]; [| exact Hq].
  rewrite lookup_insert_ne; [exact Hq |].
  intros Heq. apply Hthere. unfold on_disk. rewrite Heq, Hq. eauto.
Qed.

Lemma gzip_fastq_on_disk (in_file : string) (out_dir : option string) (w : World) :
  on_disk w in_file ->
  exists w',
    _gzip_fastq in_file out_dir w = Ok (gzip_fastq_path in_file out_dir) w' /\
    on_disk w' (gzip_fastq_path in_file out_dir).
Proof.
  intros [b Hb]. rewrite gzip_fastq_unfold.
  destruct (gzip_fastq_converts in_file) eqn:Hc.
  - cbv zeta.
    destruct (bool_decide (on_disk w (gzip_fastq_path in_file out_dir))) eqn:Hthere.
    + apply bool_decide_eq_true_1 in Hthere. eauto.
    + rewrite Hb. eexists. split; [reflexivity |].
      unfold on_disk. cbn [fs set_fs]. rewrite lookup_insert_eq. eauto.
  - rewrite (gzip_fastq_path_keep _ _ Hc). exists w. split; [reflexivity |].
    exists b. exact Hb.
Qed.

(** X1: [_gzip_fastq] never removes or rewrites a file that is on disk,
    and the only path it may write is the gzip path of its input:
    whether it returns or raises, every file that was on disk and every
    other path is afterwards as it was before. *)
Theorem gzip_fastq_keeps_files (in_file : string) (out_dir : option string)
    (w : World) (q : string) :
  is_Some (fs w !! q) \/ q <> gzip_fastq_path in_file out_dir ->
  fs (world_of (_gzip_fastq in_file out_dir w)) !! q = fs w !! q.
Proof.
  intros [[c Hq] | Hother].
  - rewrite Hq. now apply gzip_fastq_world_mono.
  - rewrite gzip_fastq_unfold.
    destruct (gzip_fastq_converts in_file); [| reflexivity]. cbv zeta.
    destruct (bool_decide _); [reflexivity |].
    destruct (fs w !! in_file); cbn [world_of fs set_fs record]; [| reflexivity].
    now rewrite lookup_insert_ne by congruence.
Qed.


(** X3: a second [_gzip_fastq] of the same input, in the world the
    first one left, returns the same path and changes nothing: the
    command is not run again. *)
Theorem gzip_fastq_idempotent (in_file : string) (out_dir : option string)
    (w w1 : World) (p : string) :
  _gzip_fastq in_file out_dir w = Ok p w1 ->
  _gzip_fastq in_file out_dir w1 = Ok p w1.
Proof.
  rewrite !gzip_fastq_unfold.
  destruct (gzip_fastq_converts in_file); [| intros [= <- <-]; reflexivity].
  cbv zeta.
  destruct (bool_decide (on_disk w (gzip_fastq_path in_file out_dir))) eqn:Hthere.
  - intros [= <- <-]. now rewrite Hthere.
  - destruct (fs w !! in_file); [| discriminate]. intros [= <- <-].
    rewrite bool_decide_eq_true_2; [reflexivity |].
    unfold on_disk. cbn [fs set_fs]. rewrite lookup_insert_eq. eauto.
Qed.


(** X5: [_bzip_gzip] called twice on the same input returns the same
    path the second time without running the pipeline again, and the
    first call leaves every file that was on disk as it was. *)
Theorem bzip_gzip_idempotent (in_file : string) (out_dir : option string)
    (w w1 : World) (p : string) :
  _bzip_gzip in_file out_dir w = Ok p w1 ->
  _bzip_gzip in_file out_dir w1 = Ok p w1 /\
  (forall q c, fs w !! q = Some c -> fs w1 !! q = Some c).
Proof.
  unfold _bzip_gzip.
  destruct (negb (is_bzipped in_file)); [intros [= <- <-]; auto |].
  destruct (is_fastq _ && negb (is_remote in_file)); [| intros [= <- <-]; auto].
  set (gzipped_file := gzipped_path _ _).
  unfold bind, file_exists, run_in_transaction, ret.
  destruct (bool_decide (is_Some (fs w !! gzipped_file))) eqn:Hthere.
  - intros [= <- <-]. rewrite Hthere. auto.
  - destruct (fs w !! in_file); cbn [fmap option_fmap option_map];
      [| discriminate].
    intros [= <- <-]. cbn [fs set_fs record]. split.
    + rewrite bool_decide_eq_true_2; [reflexivity |].
      rewrite lookup_insert_eq. eauto.
    + intros q c Hq. apply bool_decide_eq_false_1 in Hthere.
      rewrite lookup_insert_ne; [exact Hq |].
      intros Heq. apply Hthere. rewrite Heq, Hq. eauto.
Qed.

(** *** Staging without conversion or grooming *)

Lemma forM_assert_exists_find (l : list string) (w : World) :
  forM_ assert_exists l w =
    match find (missing_local w) l with
    | Some f => Raise (AssertNotExist f) w
    | None => Ok tt w
    end.
Proof.
  induction l as [|x l IH]; [reflexivity |].
  cbn [forM_ find]. unfold bind at 1. unfold assert_exists at 1.
  unfold missing_local at 1.
  destruct (is_remote x); cbn [negb andb]; [exact IH |].
  unfold bind, path_exists, file_exists. fold (on_disk w x).
  destruct (bool_decide (on_disk w x)); cbn [negb]; [exact IH | reflexivity].
Qed.

Lemma find_missing_local_none (l : list string) (w : World) :
  (forall f, f ∈ l -> staged_ok w f) -> find (missing_local w) l = None.
Proof.
  induction l as [|x l IH]; intros Hok; [reflexivity |]. cbn [find].
  assert (Hx : missing_local w x = false).
  { unfold missing_local.
    destruct (Hok x (list_elem_of_here _ _)) as [-> | Hdisk]; [reflexivity |].
    rewrite (bool_decide_eq_true_2 _ Hdisk). apply andb_false_r. }
  rewrite Hx. apply IH. intros f Hf. apply Hok. now apply list_elem_of_further.
Qed.

Lemma find_missing_local_staged (l : list string) (w : World) :
  find (missing_local w) l = None -> forall f, f ∈ l -> staged_ok w f.
Proof.
  intros Hnone f Hf. apply list_elem_of_In in Hf.
  pose proof (find_none _ _ Hnone f Hf) as Hmiss.
  unfold missing_local in Hmiss. unfold staged_ok.
  destruct (is_remote f); [now left |]. right.
  cbn [negb andb] in Hmiss. apply negb_false_iff in Hmiss.
  now apply bool_decide_eq_true_1 in Hmiss.
Qed.

(** X6: what [get_fastq_files] returns is usable: every file of the
    result is remote or is on disk in the world the call leaves. *)
Theorem staged_files_exist (data : Data) (w w' : World) (res : list string) :
  get_fastq_files data w = Ok res w' ->
  forall f, f ∈ res -> is_remote f = true \/ on_disk w' f.
Proof.
  unfold get_fastq_files. destruct (files data) as [fnames|]; [| discriminate].
  intros Hrun.
  apply bind_Ok_inv in Hrun as (ready & w1 & _ & Hrun).
  apply bind_Ok_inv in Hrun as (zipped & w2 & _ & Hrun).
  apply bind_Ok_inv in Hrun as (u & w3 & Hcheck & Hret).
  unfold ret in Hret. injection Hret as <- <-.
  rewrite forM_assert_exists_find in Hcheck.
  destruct (find (missing_local w2) zipped) eqn:Hfind; [discriminate |].
  injection Hcheck as _ <-.
  exact (find_missing_local_staged zipped w2 Hfind).
Qed.

Lemma no_grooming_test (data : Data) :
  no_grooming data = true ->
  negb (trim_reads data) && negb (String.eqb (quality_format data) "standard")
    = false.
Proof.
  unfold no_grooming.
  destruct (trim_reads data), (String.eqb (quality_format data) "standard");
    cbn; congruence.
Qed.

Lemma stage_files_pure (data : Data) (l : list string) (ready : list string)
    (w : World) :
  (forall f, f ∈ l -> PyStr.endswith f ".bam" = true ->
             _pipeline_needs_fastq (config data) data = false) ->
  no_grooming data = true ->
  stage_files data (map Some ready) l w = Ok (map Some (kept_from ready l)) w.
Proof.
  intros Hbam Hgroom. revert ready.
  induction l as [|x l IH]; intros ready; [reflexivity |].
  cbn [stage_files kept_from].
  assert (Hstep : stage_file data (map Some ready) x w
                  = Ok (map Some (keep_step ready x)) w).
  { unfold stage_file, keep_step.
    destruct (PyStr.endswith x ".bam") eqn:Hext.
    - rewrite (Hbam x (list_elem_of_here _ _) Hext). reflexivity.
    - rewrite (no_grooming_test data Hgroom), map_app.
      now destruct (is_remote x). }
  unfold bind. rewrite Hstep. apply IH.
  intros f Hf. apply Hbam. now apply list_elem_of_further.
Qed.

Lemma kept_from_app (ready l1 l2 : list string) :
  kept_from ready (l1 ++ l2) = kept_from (kept_from ready l1) l2.
Proof.
  revert ready. induction l1 as [|x l1 IH]; intros ready; [reflexivity |].
  cbn [app kept_from]. apply IH.
Qed.

Lemma kept_from_no_bam (ready l : list string) :
  (forall f, f ∈ l -> PyStr.endswith f ".bam" = false) ->
  kept_from ready l = ready ++ l.
Proof.
  revert ready. induction l as [|x l IH]; intros ready Hext.
  - now rewrite app_nil_r.
  - cbn [kept_from]. unfold keep_step.
    rewrite (Hext x (list_elem_of_here _ _)).
    rewrite IH by (intros f Hf; apply Hext; now apply list_elem_of_further).
    now rewrite <- app_assoc.
Qed.

Lemma kept_from_last_bam (ready before after : list string) (bam : string) :
  PyStr.endswith bam ".bam" = true ->
  (forall f, f ∈ after -> PyStr.endswith f ".bam" = false) ->
  kept_from ready (before ++ bam :: after) = bam :: after.
Proof.
  intros Hbam Hafter. rewrite kept_from_app. cbn [kept_from].
  unfold keep_step at 1. rewrite Hbam. now apply kept_from_no_bam.
Qed.

Lemma mapM_gzip_fastq_staged (out_dir : option string) (l : list string) (w : World) :
  (forall f, f ∈ l -> staged_ok w f) ->
  exists w',
    mapM (fun x => _gzip_fastq x out_dir) l w
      = Ok (map (fun x => gzip_fastq_path x out_dir) l) w' /\
    (forall q c, fs w !! q = Some c -> fs w' !! q = Some c) /\
    (forall f, f ∈ l -> staged_ok w' (gzip_fastq_path f out_dir)).
Proof.
  revert w. induction l as [|x l IH]; intros w Hok.
  - exists w. split; [reflexivity |]. split; [auto |].
    intros f Hf. now apply elem_of_nil in Hf.
  - assert (Hx : exists w1,
               _gzip_fastq x out_dir w = Ok (gzip_fastq_path x out_dir) w1 /\
               staged_ok w1 (gzip_fastq_path x out_dir)).
    { destruct (Hok x (list_elem_of_here _ _)) as [Hr | Hdisk].
      - exists w. rewrite gzip_fastq_remote by exact Hr.
        rewrite gzip_fastq_path_keep.
        + split; [reflexivity | now left].
        + unfold gzip_fastq_converts. rewrite Hr. cbn [negb].
          now rewrite andb_false_r.
      - destruct (gzip_fastq_on_disk x out_dir w Hdisk) as (w1 & Hrun & Hout).
        exists w1. split; [exact Hrun | now right]. }
    destruct Hx as (w1 & Hrun & Hout).
    assert (Hmono1 : forall q c, fs w !! q = Some c -> fs w1 !! q = Some c).
    { intros q c Hq.
      pose proof (gzip_fastq_world_mono x out_dir w q c Hq) as Hkeep.
      now rewrite Hrun in Hkeep. }
    destruct (IH w1) as (w' & Hrest & Hmono & Hall).
    { intros f Hf. destruct (Hok f (list_elem_of_further _ _ _ Hf)) as [Hr | [c Hc]];
        [now left | right]. exists c. now apply Hmono1. }
    exists w'. split; [| split].
    + cbn [mapM map]. unfold bind at 1. rewrite Hrun.
      unfold bind at 1. rewrite Hrest. reflexivity.
    + intros q c Hq. apply Hmono. now apply Hmono1.
    + intros f Hf. apply elem_of_cons in Hf as [-> | Hf]; [| now apply Hall].
      destruct Hout as [Hr | [c Hc]]; [now left | right].
      exists c. now apply Hmono.
Qed.

Lemma get_fastq_files_pure (data : Data) (fnames : list string) (w : World) :
  files data = Some fnames ->
  (forall f, f ∈ fnames -> PyStr.endswith f ".bam" = true ->
             _pipeline_needs_fastq (config data) data = false) ->
  no_grooming data = true ->
  (forall f, f ∈ kept_from [] fnames -> staged_ok w f) ->
  let kept := kept_from [] fnames in
  let out_dir := PosixPath.join (work_dir data) "fastq" in
  exists w',
    get_fastq_files data w =
      Ok (if bool_decide (needs_uncompressed data) then kept
          else map (fun x => gzip_fastq_path x (Some out_dir)) kept) w' /\
    (forall q c, fs w !! q = Some c -> fs w' !! q = Some c) /\
    (needs_uncompressed data -> w' = w).
Proof.
  intros Hfiles Hbam Hgroom Hok kept out_dir.
  unfold get_fastq_files, needs_uncompressed. rewrite Hfiles.
  unfold bind at 1.
  rewrite (stage_files_pure data fnames [] w Hbam Hgroom : stage_files data [] fnames w = _).
  rewrite omap_id_Some. fold kept.
  destruct (bool_decide ("bowtie" ∈ reference data)) eqn:Hbowtie.
  - exists w. unfold bind, ret.
    rewrite forM_assert_exists_find, (find_missing_local_none kept w Hok).
    auto.
  - unfold bind at 1. unfold bind at 1. unfold safe_makedir at 1.
    fold out_dir.
    destruct (mapM_gzip_fastq_staged (Some out_dir) kept (record (Makedir out_dir) w))
      as (w' & Hzip & Hmono & Hall).
    { intros f Hf. exact (Hok f Hf). }
    rewrite Hzip. exists w'. unfold bind, ret.
    rewrite forM_assert_exists_find.
    rewrite find_missing_local_none.
    + split; [reflexivity |]. split; [exact Hmono |].
      intros Habs. apply bool_decide_eq_false_1 in Hbowtie. contradiction.
    + intros p Hp. apply list_elem_of_fmap in Hp as (f & -> & Hf). now apply Hall.
Qed.

(** X7: a batch without [.bam] files, staged without grooming, gives
    one output per input, in the order of the inputs.  If every input
    is remote or on disk, the call returns: the inputs themselves when
    the reference has a [bowtie] index, the gzip path of each input
    under [work_dir/fastq] otherwise; and every file that was on disk
    is still there with the same bytes. *)
Theorem stage_read_files_in_order (data : Data) (fnames : list string) (w : World) :
  files data = Some fnames ->
  (forall f, f ∈ fnames -> PyStr.endswith f ".bam" = false) ->
  no_grooming data = true ->
  (forall f, f ∈ fnames -> is_remote f = true \/ on_disk w f) ->
  let out_dir := PosixPath.join (work_dir data) "fastq" in
  exists w',
    get_fastq_files data w =
      Ok (if bool_decide (needs_uncompressed data) then fnames
          else map (fun x => gzip_fastq_path x (Some out_dir)) fnames) w' /\
    (forall q c, fs w !! q = Some c -> fs w' !! q = Some c).
Proof.
  intros Hfiles Hext Hgroom Hok out_dir.
  assert (Hkept : kept_from [] fnames = fnames)
    by (now rewrite kept_from_no_bam).
  destruct (get_fastq_files_pure data fnames w Hfiles) as (w' & Hrun & Hmono & _).
  - intros f Hf Hbam. rewrite (Hext f Hf) in Hbam. discriminate.
  - exact Hgroom.
  - rewrite Hkept. exact Hok.
  - rewrite Hkept in Hrun. exists w'. split; [exact Hrun | exact Hmono].
Qed.

(** X8: with an aligner that reads BAM (or none), and without
    grooming, a batch is staged as its part from the last [.bam] input
    on: for inputs [before ++ bam :: after] with no [.bam] file in
    [after], the result is made from [bam :: after] alone, whatever
    [before] holds. *)
Theorem stage_from_last_bam
    (data : Data) (before after : list string) (bam : string) (w : World) :
  files data = Some (before ++ bam :: after) ->
  PyStr.endswith bam ".bam" = true ->
  (forall f, f ∈ after -> PyStr.endswith f ".bam" = false) ->
  _pipeline_needs_fastq (config data) data = false ->
  no_grooming data = true ->
  (forall f, f ∈ bam :: after -> is_remote f = true \/ on_disk w f) ->
  let out_dir := PosixPath.join (work_dir data) "fastq" in
  exists w',
    get_fastq_files data w =
      Ok (if bool_decide (needs_uncompressed data) then bam :: after
          else map (fun x => gzip_fastq_path x (Some out_dir)) (bam :: after)) w'.
Proof.
  intros Hfiles Hbam Hafter Hneeds Hgroom Hok out_dir.
  pose proof (kept_from_last_bam [] before after bam Hbam Hafter) as Hkept.
  destruct (get_fastq_files_pure data _ w Hfiles) as (w' & Hrun & _).
  - intros f _ _. exact Hneeds.
  - exact Hgroom.
  - rewrite Hkept. exact Hok.
  - rewrite Hkept in Hrun. exists w'. exact Hrun.
Qed.

(** X9: when the reference has a [bowtie] index, a batch without [.bam]
    files and without grooming is only checked: the call returns the
    inputs in a world it has not touched if each is remote or on disk,
    and otherwise fails the existence assertion on the first local
    input that is missing. *)
Theorem stage_for_bowtie_checks_inputs (data : Data) (fnames : list string) (w : World) :
  files data = Some fnames ->
  (forall f, f ∈ fnames -> PyStr.endswith f ".bam" = false) ->
  no_grooming data = true ->
  needs_uncompressed data ->
  get_fastq_files data w =
    match find (missing_local w) fnames with
    | Some f => Raise (AssertNotExist f) w
    | None => Ok fnames w
    end.
Proof.
  intros Hfiles Hext Hgroom Hbowtie.
  unfold get_fastq_files. rewrite Hfiles. unfold bind at 1.
  assert (Hstage : stage_files data [] fnames w = Ok (map Some fnames) w).
  { rewrite <- (kept_from_no_bam [] fnames Hext) at 2.
    apply (stage_files_pure data fnames [] w); [| exact Hgroom].
    intros f Hf Hbam. rewrite (Hext f Hf) in Hbam. discriminate. }
  rewrite Hstage, omap_id_Some.
  unfold needs_uncompressed in Hbowtie.
  rewrite (bool_decide_eq_true_2 _ Hbowtie).
  unfold bind, ret. rewrite forM_assert_exists_find.
  now destruct (find (missing_local w) fnames).
Qed.

(** *** [_merge_list_fastqs] on valid inputs *)

Lemma merge_list_output_present
    (inputs : list string) (out_file : string) (config : Config) (w : World) :
  (forall f, f ∈ inputs -> is_fastq f = true) ->
  (forall f, f ∈ inputs -> on_disk w f) ->
  on_disk w out_file ->
  _merge_list_fastqs inputs out_file config w = Ok out_file w.
Proof.
  intros Hfq Hon Hout. unfold _merge_list_fastqs.
  rewrite (forallb_true_elem _ _ Hfq). cbn [negb].
  rewrite (bind_Ok _ _ _ _ _ (mapM_file_exists inputs w)).
  rewrite (all_present_true inputs w Hon). cbn [negb].
  unfold bind, file_exists. fold (on_disk w out_file).
  rewrite bool_decide_eq_true_2 by exact Hout. reflexivity.
Qed.

Lemma merge_list_Ok_valid
    (inputs : list string) (out_file r : string) (config : Config) (w w' : World) :
  _merge_list_fastqs inputs out_file config w = Ok r w' ->
  (forall f, f ∈ inputs -> is_fastq f = true) /\
  (forall f, f ∈ inputs -> on_disk w f).
Proof.
  unfold _merge_list_fastqs.
  destruct (forallb is_fastq inputs) eqn:Hfq; cbn [negb]; [| discriminate].
  rewrite (bind_Ok _ _ _ _ _ (mapM_file_exists inputs w)).
  destruct (forallb id (map (fun f => bool_decide (on_disk w f)) inputs)) eqn:Hon;
    cbn [negb]; [| discriminate].
  intros _. split.
  - intros f Hf. rewrite forallb_forall in Hfq. apply Hfq.
    now apply list_elem_of_In.
  - intros f Hf. rewrite forallb_forall in Hon.
    apply (bool_decide_eq_true_1 (on_disk w f)).
    apply (Hon (bool_decide (on_disk w f))).
    apply in_map_iff. exists f. split; [reflexivity | now apply list_elem_of_In].
Qed.

Lemma gzip_fastq_all_fs_path_on_disk
    (l : list string) (m : gmap string string) (f : string) :
  (forall g, g ∈ l -> is_Some (m !! g)) ->
  f ∈ l ->
  is_Some (gzip_fastq_all_fs m l !! normalised_path f).
Proof.
  revert m. induction l as [|x l IH]; intros m Hdisk Hin.
  - now apply elem_of_nil in Hin.
  - cbn [gzip_fastq_all_fs].
    assert (Hnext : forall g, g ∈ l -> is_Some (gzip_fastq_fs m x !! g)).
    { intros g Hg. destruct (Hdisk g (list_elem_of_further _ _ _ Hg)) as [b Hb].
      exists b. now apply gzip_fastq_fs_mono. }
    apply elem_of_cons in Hin as [-> | Hin]; [| now apply IH].
    destruct (normalised_bytes_on_disk m x (Hdisk x (list_elem_of_here _ _)))
      as [c Hc].
    exists c. apply gzip_fastq_all_fs_mono.
    rewrite gzip_fastq_fs_path by (apply Hdisk; apply list_elem_of_here).
    exact Hc.
Qed.

Lemma cat_on_disk (m : gmap string string) (ps : list string) :
  (forall p, p ∈ ps -> is_Some (m !! p)) -> is_Some (cat m ps).
Proof.
  induction ps as [|p ps IH]; intros Hall; cbn [cat]; [eauto |].
  destruct (Hall p (list_elem_of_here _ _)) as [c ->].
  destruct IH as [cs ->]; [| eauto].
  intros q Hq. apply Hall. now apply list_elem_of_further.
Qed.

(** What a run on valid inputs does to the file system. *)
Lemma merge_list_valid_run
    (inputs : list string) (out_file : string) (config : Config) (w : World) :
  (forall f, f ∈ inputs -> is_fastq f = true) ->
  (forall f, f ∈ inputs -> on_disk w f) ->
  exists w',
    _merge_list_fastqs inputs out_file config w = Ok out_file w' /\
    (on_disk w out_file -> w' = w) /\
    (fs w !! out_file = None ->
     (length inputs <> 1%nat ->
      exists bytes,
        fs w' = <[out_file := bytes]> (gzip_fastq_all_fs (fs w) inputs)) /\
     (forall a, inputs = [a] ->
        exists c,
          gzip_fastq_fs (fs w) a !! normalised_path a = Some c /\
          fs w' = <[out_file := c]>
                    (delete (normalised_path a) (gzip_fastq_fs (fs w) a)) /\
          exists evs, log w' = evs ++ [Move (normalised_path a) out_file])).
Proof.
  intros Hfq Hdisk.
  destruct (fs w !! out_file) as [old|] eqn:Hout.
  { exists w. split; [| split; [auto | discriminate]].
    apply merge_list_output_present; auto. exists old. exact Hout. }
  destruct (mapM_gzip_fastq_fs inputs w Hdisk) as (wn & Hzip & Hfs).
  unfold _merge_list_fastqs.
  rewrite (forallb_true_elem _ _ Hfq). cbn [negb].
  rewrite (bind_Ok _ _ _ _ _ (mapM_file_exists inputs w)).
  rewrite (all_present_true inputs w Hdisk). cbn [negb].
  unfold bind at 1. unfold file_exists at 1.
  rewrite bool_decide_eq_false_2 by (rewrite Hout; apply is_Some_None).
  cbn [negb]. unfold bind at 1. rewrite Hzip.
  rewrite length_map.
  destruct (length inputs =? 1)%nat eqn:Hlen.
  - apply Nat.eqb_eq in Hlen.
    destruct inputs as [|a [|b rest]]; try discriminate.
    cbn [map].
    destruct (gzip_fastq_all_fs_path_on_disk [a] (fs w) a Hdisk
                (list_elem_of_here _ _)) as [c Hc].
    cbn [gzip_fastq_all_fs] in Hc, Hfs.
    unfold bind, shutil_move. rewrite Hfs, Hc.
    eexists. split; [reflexivity |]. split.
    + intros [x Hx]. congruence.
    + intros _. split; [intros Hne; now elim Hne |].
      intros a' [= <-]. exists c. split; [exact Hc |].
      split; [reflexivity |]. exists (log wn). reflexivity.
  - apply Nat.eqb_neq in Hlen.
    destruct (cat_on_disk (fs wn) (map normalised_path inputs)) as [bytes Hcat].
    { intros p Hp. apply list_elem_of_fmap in Hp as (f & -> & Hf).
      rewrite Hfs. now apply gzip_fastq_all_fs_path_on_disk. }
    unfold bind, run_in_transaction. rewrite Hcat.
    eexists. split; [reflexivity |]. split.
    + intros [x Hx]. congruence.
    + intros _. split.
      * intros _. exists bytes. cbn [fs set_fs record]. now rewrite Hfs.
      * intros a ->. now elim Hlen.
Qed.

Lemma merge_list_valid_on_disk
    (inputs : list string) (out_file : string) (config : Config) (w : World) :
  (forall f, f ∈ inputs -> is_fastq f = true) ->
  (forall f, f ∈ inputs -> on_disk w f) ->
  exists w',
    _merge_list_fastqs inputs out_file config w = Ok out_file w' /\
    on_disk w' out_file.
Proof.
  intros Hfq Hdisk.
  destruct (merge_list_valid_run inputs out_file config w Hfq Hdisk)
    as (w' & Hrun & Hhit & Hfresh).
  exists w'. split; [exact Hrun |].
  destruct (fs w !! out_file) as [old|] eqn:Hout.
  - rewrite Hhit by (exists old; exact Hout). exists old. exact Hout.
  - destruct (Hfresh eq_refl) as [Hmany Hone].
    destruct (decide (length inputs = 1%nat)) as [Hlen | Hlen].
    + destruct inputs as [|a [|b rest]]; try discriminate.
      destruct (Hone a eq_refl) as (c & _ & Hfs & _).
      exists c. rewrite Hfs. apply lookup_insert_eq.
    + destruct (Hmany Hlen) as [bytes Hfs].
      exists bytes. rewrite Hfs. apply lookup_insert_eq.
Qed.

(** X10: [_merge_list_fastqs] returns exactly when every input is a
    read-format file on disk; what it returns is then the output path,
    and the output is on disk. *)
Theorem merge_list_returns_iff_valid
    (inputs : list string) (out_file : string) (config : Config) (w : World) :
  ((forall f, f ∈ inputs -> is_fastq f = true /\ on_disk w f) <->
   exists r w', _merge_list_fastqs inputs out_file config w = Ok r w') /\
  (forall r w',
     _merge_list_fastqs inputs out_file config w = Ok r w' ->
     r = out_file /\ on_disk w' out_file).
Proof.
  assert (Hok : forall r w',
            _merge_list_fastqs inputs out_file config w = Ok r w' ->
            r = out_file /\ on_disk w' out_file).
  { intros r w' Hrun.
    destruct (merge_list_Ok_valid _ _ _ _ _ _ Hrun) as [Hfq Hdisk].
    destruct (merge_list_valid_on_disk inputs out_file config w Hfq Hdisk)
      as (w2 & Hrun2 & Hout).
    rewrite Hrun in Hrun2. injection Hrun2 as -> ->. auto. }
  split; [split |]; [| | exact Hok].
  - intros Hvalid.
    destruct (merge_list_valid_on_disk inputs out_file config w)
      as (w' & Hrun & _); [apply Hvalid.. |]. eauto.
  - intros (r & w' & Hrun) f Hf.
    destruct (merge_list_Ok_valid _ _ _ _ _ _ Hrun) as [Hfq Hdisk]. auto.
Qed.

(** X11: a merge of two or more inputs (or of none) consumes nothing:
    when it returns, every file that was on disk is still there with
    the same bytes. *)
Theorem merge_list_keeps_files
    (inputs : list string) (out_file r : string) (config : Config)
    (w w' : World) (p c : string) :
  length inputs <> 1%nat ->
  _merge_list_fastqs inputs out_file config w = Ok r w' ->
  fs w !! p = Some c ->
  fs w' !! p = Some c.
Proof.
  intros Hlen Hrun Hp.
  destruct (merge_list_Ok_valid _ _ _ _ _ _ Hrun) as [Hfq Hdisk].
  destruct (merge_list_valid_run inputs out_file config w Hfq Hdisk)
    as (w2 & Hrun2 & Hhit & Hfresh).
  rewrite Hrun in Hrun2. injection Hrun2 as -> <-.
  destruct (fs w !! out_file) as [old|] eqn:Hout.
  - rewrite Hhit by (exists old; exact Hout). exact Hp.
  - destruct (Hfresh eq_refl) as [Hmany _].
    destruct (Hmany Hlen) as [bytes Hfs]. rewrite Hfs.
    rewrite lookup_insert_ne by congruence.
    now apply gzip_fastq_all_fs_mono.
Qed.

(** X12: a merge of one input into an output that is not there yet
    moves the gzip-normalised file of the input to the output path.
    The output then holds its bytes, the normalised file is gone from
    where it was, in particular a gzip-compressed input is no longer on
    disk, and no other path changes. *)
Theorem merge_list_single_input_moved
    (a out_file : string) (config : Config) (w : World) :
  is_fastq a = true ->
  on_disk w a ->
  fs w !! out_file = None ->
  exists w',
    _merge_list_fastqs [a] out_file config w = Ok out_file w' /\
    fs w' !! out_file = normalised_bytes (fs w) a /\
    (normalised_path a <> out_file -> fs w' !! normalised_path a = None) /\
    (is_gzipped a = true -> fs w' !! a = None) /\
    (forall p, p <> out_file -> p <> normalised_path a -> fs w' !! p = fs w !! p) /\
    (exists evs, log w' = evs ++ [Move (normalised_path a) out_file]).
Proof.
  intros Hfq Hdisk Hout.
  destruct (merge_list_valid_run [a] out_file config w)
    as (w' & Hrun & _ & Hfresh).
  { intros f Hf. apply list_elem_of_singleton in Hf. now subst f. }
  { intros f Hf. apply list_elem_of_singleton in Hf. now subst f. }
  destruct (Hfresh Hout) as [_ Hone].
  destruct (Hone a eq_refl) as (c & Hc & Hfs & Hlog).
  assert (Hgone : normalised_path a <> out_file -> fs w' !! normalised_path a = None).
  { intros Hne. rewrite Hfs, lookup_insert_ne by congruence.
    apply lookup_delete_eq. }
  exists w'. split; [exact Hrun |]. split; [| split; [exact Hgone | split; [| split]]].
  - rewrite Hfs, lookup_insert_eq, <- Hc. now apply gzip_fastq_fs_path.
  - intros Hgz.
    assert (Hsame : normalised_path a = a).
    { unfold normalised_path. apply gzip_fastq_path_keep.
      unfold gzip_fastq_converts. unfold is_gzipped in Hgz.
      destruct (compression a); try discriminate. apply andb_false_r. }
    rewrite <- Hsame at 1. apply Hgone. rewrite Hsame.
    intros ->. destruct Hdisk as [b Hb]. congruence.
  - intros p Hp1 Hp2. rewrite Hfs.
    rewrite lookup_insert_ne, lookup_delete_ne by congruence.
    now apply gzip_fastq_fs_other.
  - exact Hlog.
Qed.

(** X13: repeating a merge that returned, in the world it left, returns
    the same path and changes nothing, provided the merge was not the
    move of a single input that is its own gzip-normalised file. *)
Theorem merge_list_repeat
    (inputs : list string) (out_file r : string) (config : Config) (w w1 : World) :
  _merge_list_fastqs inputs out_file config w = Ok r w1 ->
  length inputs <> 1%nat \/
    (forall a, inputs = [a] -> normalised_path a <> a) ->
  _merge_list_fastqs inputs out_file config w1 = Ok r w1.
Proof.
  intros Hrun Hcase.
  destruct (merge_list_Ok_valid _ _ _ _ _ _ Hrun) as [Hfq Hdisk].
  destruct (merge_list_valid_run inputs out_file config w Hfq Hdisk)
    as (w2 & Hrun2 & Hhit & Hfresh).
  rewrite Hrun in Hrun2. injection Hrun2 as -> <-.
  destruct (fs w !! out_file) as [old|] eqn:Hout.
  { rewrite Hhit in * by (exists old; exact Hout). exact Hrun. }
  destruct (Hfresh eq_refl) as [Hmany Hone].
  destruct (decide (length inputs = 1%nat)) as [Hlen | Hlen].
  - destruct inputs as [|a [|b rest]]; try discriminate.
    destruct Hcase as [Habs | Hmoved]; [now elim Habs |].
    specialize (Hmoved a eq_refl).
    destruct (Hone a eq_refl) as (c & _ & Hfs & _).
    apply merge_list_output_present; [exact Hfq | |].
    + intros f Hf. apply list_elem_of_singleton in Hf. subst f.
      destruct (Hdisk a (list_elem_of_here _ _)) as [b Hb].
      unfold on_disk. rewrite Hfs.
      destruct (decide (out_file = a)) as [-> | Hne].
      * rewrite lookup_insert_eq. eauto.
      * rewrite lookup_insert_ne, lookup_delete_ne by congruence.
        exists b. now apply gzip_fastq_fs_mono.
    + exists c. rewrite Hfs. apply lookup_insert_eq.
  - destruct (Hmany Hlen) as [bytes Hfs].
    apply merge_list_output_present; [exact Hfq | |].
    + intros f Hf. destruct (Hdisk f Hf) as [b Hb].
      exists b. rewrite Hfs. rewrite lookup_insert_ne by congruence.
      now apply gzip_fastq_all_fs_mono.
    + exists bytes. rewrite Hfs. apply lookup_insert_eq.
Qed.

(** *** [merge] in single-end mode and when it fails *)

Lemma merge_single_unfold
    (first : list string) (rest : list (list string))
    (out_file : string) (config : Config) (w : World) :
  length first = 1%nat ->
  (forall s, s ∈ rest -> (1 <= length s)%nat) ->
  merge (first :: rest) out_file config w =
    (let! out := _merge_list_fastqs (mate 0 (first :: rest)) out_file config in
     ret (MergedSingle out)) w.
Proof.
  intros Hfirst Hrest.
  assert (Hall : forall s, s ∈ first :: rest -> (1 <= length s)%nat).
  { intros s Hs. apply elem_of_cons in Hs as [-> | Hs]; [lia | auto]. }
  unfold merge. unfold bind at 1. rewrite mapM_item.
  rewrite forallb_lt_true by (intros s Hs; specialize (Hall s Hs); lia).
  rewrite Hfirst. reflexivity.
Qed.

(** X14: single-end merge.  For a sequence of file sets whose first has
    one member and the others at least one, with the first members
    read-format files on disk that have different gzip-normalised paths
    when they differ, and with the output path not on disk, [merge]
    returns the output path itself, which then holds the concatenation,
    in the order of the sets, of the gzip-normalised forms of the first
    members; members after the first are not read. *)
Theorem merge_single_end_concatenates
    (first : list string) (rest : list (list string))
    (out_file : string) (config : Config) (w : World) :
  let inputs := mate 0 (first :: rest) in
  length first = 1%nat ->
  Forall (fun s => (1 <= length s)%nat) rest ->
  Forall (fun f => is_fastq f = true /\ on_disk w f) inputs ->
  fs w !! out_file = None ->
  distinct_normal_forms inputs ->
  exists w' bytes,
    merge (first :: rest) out_file config w = Ok (MergedSingle out_file) w' /\
    normalised_cat (fs w) inputs = Some bytes /\
    fs w' !! out_file = Some bytes /\
    (Forall (fun f => is_gzipped f = true) inputs -> cat (fs w) inputs = Some bytes).
Proof.
  intros inputs Hfirst Hrest Hok Hout Hdistinct.
  rewrite Forall_forall in Hrest. rewrite Forall_forall in Hok.
  destruct (merge_list_fresh inputs out_file config w)
    as (w' & bytes & Hrun & Hcat & Hat & _);
    [intros f Hf; apply (Hok f Hf) | intros f Hf; apply (Hok f Hf)
     | exact Hout | exact Hdistinct |].
  exists w', bytes. split; [| split; [exact Hcat | split; [exact Hat |]]].
  - rewrite merge_single_unfold by assumption.
    fold inputs. unfold bind. rewrite Hrun. reflexivity.
  - intros Hgz. rewrite Forall_forall in Hgz.
    rewrite <- Hcat. symmetry. now apply normalised_cat_gzipped.
Qed.

(** X15: [merge] in paired mode checks the second mates only after the
    first mates are merged.  If the first mates are read-format files on
    disk and some second mate is not read-format, the call raises the
    [ValueError] for the second mates in a world where the [_R1] output
    has been written and is left behind. *)
Theorem merge_paired_partial_output
    (first : list string) (rest : list (list string))
    (out_file : string) (config : Config) (w : World) (g : string) :
  let pair1 := mate 0 (first :: rest) in
  let pair2 := mate 1 (first :: rest) in
  (1 < length first)%nat ->
  Forall (fun s => (2 <= length s)%nat) rest ->
  Forall (fun f => is_fastq f = true /\ on_disk w f) pair1 ->
  g ∈ pair2 ->
  is_fastq g = false ->
  fs w !! paired_out "_R1" out_file = None ->
  exists w1,
    merge (first :: rest) out_file config w = Raise (ValueErrorNotFastq pair2) w1 /\
    on_disk w1 (paired_out "_R1" out_file).
Proof.
  intros pair1 pair2 Hfirst Hrest Hok Hg Hbad Hout.
  rewrite Forall_forall in Hrest. rewrite Forall_forall in Hok.
  destruct (merge_list_valid_on_disk pair1 (paired_out "_R1" out_file) config w)
    as (w1 & Hrun & Hthere);
    [intros f Hf; apply (Hok f Hf) | intros f Hf; apply (Hok f Hf) |].
  exists w1. split; [| exact Hthere].
  rewrite merge_paired_unfold by assumption.
  fold pair1 pair2. unfold bind at 1. rewrite Hrun.
  unfold bind at 1. unfold _merge_list_fastqs.
  rewrite (forallb_false_elem _ _ g Hg Hbad). reflexivity.
Qed.

(** X16: an empty file set anywhere in the sequence makes [merge] raise
    [IndexError] at the first index it takes, before anything is read
    or written, in single-end and in paired mode alike. *)
Theorem merge_empty_set_index_error
    (sets : list (list string)) (out_file : string) (config : Config) (w : World) :
  [] ∈ sets ->
  merge sets out_file config w = Raise IndexError w.
Proof.
  intros Hempty. unfold merge. unfold bind. rewrite mapM_item.
  rewrite (forallb_false_elem _ sets [] Hempty); reflexivity.
Qed.

(** *** Staging one [.bam] file through the conversion *)

(** X17: staging a single [.bam] file for an aligner that does not read
    BAM hands the file to the conversion.  If the conversion fails, so
    does the call.  If it returns, its null entries are dropped, and
    when the files it names are remote or on disk the call returns them
    (their gzip paths under [work_dir/fastq] unless the reference has a
    [bowtie] index). *)
Theorem stage_bam_converted (data : Data) (bam : string) (w : World) :
  files data = Some [bam] ->
  PyStr.endswith bam ".bam" = true ->
  _pipeline_needs_fastq (config data) data = true ->
  let called := record (CallBamToFastq bam) w in
  let out_dir := PosixPath.join (work_dir data) "fastq" in
  (prep_fastq_inputs [bam] data (fs w) = None ->
   get_fastq_files data w = Raise (CollaboratorFailed (CallBamToFastq bam)) called) /\
  (forall outs m,
     prep_fastq_inputs [bam] data (fs w) = Some (outs, m) ->
     (forall f, f ∈ omap id outs -> staged_ok (set_fs m called) f) ->
     exists w',
       get_fastq_files data w =
         Ok (if bool_decide (needs_uncompressed data) then omap id outs
             else map (fun x => gzip_fastq_path x (Some out_dir)) (omap id outs))
            w').
Proof.
  intros Hfiles Hext Hneeds called out_dir.
  assert (Hstage : stage_files data [] [bam] w
                   = (let! r := convert_bam_to_fastq bam data in ret r) w).
  { cbn [stage_files]. unfold bind at 1. unfold stage_file.
    now rewrite Hext, Hneeds. }
  assert (Hrun : get_fastq_files data w =
            match prep_fastq_inputs [bam] data (fs w) with
            | Some (outs, m) =>
                (let! zipped :=
                   if bool_decide ("bowtie" ∈ reference data) then ret (omap id outs)
                   else let! d := safe_makedir out_dir in
                        mapM (fun x => _gzip_fastq x (Some d)) (omap id outs) in
                 forM_ assert_exists zipped;; ret zipped) (set_fs m called)
            | None => Raise (CollaboratorFailed (CallBamToFastq bam)) called
            end).
  { unfold get_fastq_files. rewrite Hfiles.
    unfold bind at 1. rewrite Hstage. unfold bind at 1.
    unfold convert_bam_to_fastq. fold called.
    destruct (prep_fastq_inputs [bam] data (fs w)) as [[outs m]|]; [| reflexivity].
    unfold ret at 1. now destruct (bool_decide ("bowtie" ∈ reference data)). }
  rewrite Hrun. unfold needs_uncompressed. split.
  - intros ->. reflexivity.
  - intros outs m -> Hok.
    destruct (bool_decide ("bowtie" ∈ reference data)).
    + eexists. unfold bind, ret.
      rewrite forM_assert_exists_find, (find_missing_local_none _ _ Hok).
      reflexivity.
    + unfold bind at 1. unfold bind at 1. unfold safe_makedir at 1.
      fold out_dir.
      destruct (mapM_gzip_fastq_staged (Some out_dir) (omap id outs)
                  (record (Makedir out_dir) (set_fs m called)))
        as (w' & Hzip & _ & Hall).
      { intros f Hf. exact (Hok f Hf). }
      rewrite Hzip. exists w'. unfold bind, ret.
      rewrite forM_assert_exists_find, find_missing_local_none; [reflexivity |].
      intros p Hp. apply list_elem_of_fmap in Hp as (f & -> & Hf). now apply Hall.
Qed.

End Properties.

(** ** Concrete runs

    The runs below use the collaborators of [Sample]. *)

Import Sample.

Example endswith_bam : PyStr.endswith "lane1/sample.bam" ".bam" = true.
Proof. reflexivity. Qed.

Example endswith_short : PyStr.endswith "am" ".bam" = false.
Proof. reflexivity. Qed.

Example splitext_bz2 :
  PosixPath.splitext "in/reads.fastq.bz2" = ("in/reads.fastq", ".bz2").
Proof. reflexivity. Qed.

Example splitext_hidden : PosixPath.splitext "dir.d/.profile" = ("dir.d/.profile", "").
Proof. reflexivity. Qed.

Example basename_nested : PosixPath.basename "in/reads.fastq" = "reads.fastq".
Proof. reflexivity. Qed.

Example join_plain : PosixPath.join "work" "fastq" = "work/fastq".
Proof. reflexivity. Qed.

Example join_absolute : PosixPath.join "work" "/abs" = "/abs".
Proof. reflexivity. Qed.

Example stage_uncompressed_local :
  let w := disk [("in/a.fastq", "A")] in
  get_fastq_files (lane ["in/a.fastq"] ["fasta"; "bwa"] (Some "bwa")) w
    = Ok ["work/fastq/a.fastq.gz"]
         (set_fs (<["work/fastq/a.fastq.gz" := "gz(A)"]> (fs w))
                 (record (RunGzip "in/a.fastq" "work/fastq/a.fastq.gz")
                         (record (Makedir "work/fastq") w))).
Proof. by_running. Qed.

Example stage_for_bowtie :
  let w := disk [("in/a.fastq", "A")] in
  get_fastq_files (lane ["in/a.fastq"] ["fasta"; "bowtie"] (Some "bowtie")) w
    = Ok ["in/a.fastq"] w.
Proof. by_running. Qed.

Example merge_single_end :
  let w := disk [("a.fq.gz", "A"); ("b.fq.gz", "B")] in
  merge [["a.fq.gz"]; ["b.fq.gz"]] "m.fq.gz" no_aligner w
    = Ok (MergedSingle "m.fq.gz")
         (set_fs (<["m.fq.gz" := "AB"]> (fs w))
                 (record (RunCat ["a.fq.gz"; "b.fq.gz"] "m.fq.gz") w)).
Proof. by_running. Qed.

(** C9 at a gzip-compressed local file. *)
Lemma gzip_fastq_noop_witness :
  let w := disk [("in/reads_1.fastq.gz", "R1")] in
  (is_gzipped "in/reads_1.fastq.gz" = true \/
   is_remote "in/reads_1.fastq.gz" = true) /\
  _gzip_fastq "in/reads_1.fastq.gz" (Some "work/fastq") w
    = Ok "in/reads_1.fastq.gz" w.
Proof.
  intros w. split; [left; by_running |].
  apply gzip_fastq_noop. left. by_running.
Defined.

(** C8 at a local bzip2-compressed read file whose target is not there
    yet: the pipeline runs and writes [work/fastq/reads.fastq.gz]. *)
Lemma bzip_gzip_spec_witness :
  let in_file := "in/reads.fastq.bz2" in
  let gzipped_file := "work/fastq/reads.fastq.gz" in
  let w := disk [(in_file, "BZ")] in
  (is_bzipped in_file = true /\ is_remote in_file = false) /\
  _bzip_gzip in_file (Some "work/fastq") w =
    Ok gzipped_file
       (set_fs (<[gzipped_file := "gz(bunzip2(BZ))"]> (fs w))
               (record (RunBunzip2Gzip in_file gzipped_file) w)).
Proof.
  intros in_file gzipped_file w. split; [split; by_running |].
  destruct (bzip_gzip_spec in_file (Some "work/fastq") w) as [_ Hbz].
  destruct Hbz as [_ Hrun]; [by_running | by_running | by_running |].
  rewrite (Hrun "BZ"); by_running.
Defined.

(** C8 as stated fails on a remote file: it is bzip2-compressed and
    read-format, and [_bzip_gzip] hands it back as it is, produces
    nothing at the [.gz] path and does not look whether that path
    exists. *)
Lemma bzip_gzip_remote_counterexample :
  let in_file := "s3://bucket/reads.fastq.bz2" in
  let gzipped_file := "s3://bucket/reads.fastq.gz" in
  let w := disk [(gzipped_file, "GZ")] in
  is_bzipped in_file = true /\
  is_fastq (fst (PosixPath.splitext in_file)) = true /\
  gzipped_path (fst (PosixPath.splitext in_file)) None = gzipped_file /\
  on_disk w gzipped_file /\
  _bzip_gzip in_file None w = Ok in_file w /\
  in_file <> gzipped_file.
Proof.
  intros in_file gzipped_file w.
  split; [by_running |]. split; [by_running |]. split; [by_running |].
  split; [exists "GZ"; by_running |]. split; [by_running | discriminate].
Defined.

(** C7 at a list with a file that is not read-format. *)
Lemma merge_list_rejects_bad_input_witness :
  let inputs := ["a_1.fastq.gz"; "aln.bam"] in
  let w := disk [("a_1.fastq.gz", "A1"); ("aln.bam", "BAM")] in
  ("aln.bam" ∈ inputs /\ is_fastq "aln.bam" = false) /\
  _merge_list_fastqs inputs "merged.fastq.gz" no_aligner w
    = Raise (ValueErrorNotFastq inputs) w.
Proof.
  intros inputs w.
  assert (Hin : "aln.bam" ∈ inputs) by (right; left).
  assert (Hbad : is_fastq "aln.bam" = false) by by_running.
  split; [split; assumption |].
  destruct (merge_list_rejects_bad_input
              inputs "merged.fastq.gz" no_aligner w "aln.bam" Hin (or_introl Hbad))
    as (e & Hrun & _ & Hvalue & _).
  rewrite Hrun. f_equal. apply Hvalue. exists "aln.bam". split; assumption.
Defined.

(** C7 as stated fails on what the error identifies.  With the second
    of two inputs missing and with the first of them missing, the failed
    assertion is the same, made from both names; and the [ValueError]
    for a list with one file that is not read-format names the valid
    file with it. *)
Lemma merge_list_error_names_all_counterexample :
  let inputs := ["a.fq.gz"; "b.fq.gz"] in
  let wa := disk [("a.fq.gz", "A")] in
  let wb := disk [("b.fq.gz", "B")] in
  let mixed := ["a.fq.gz"; "aln.bam"] in
  let wm := disk [("a.fq.gz", "A"); ("aln.bam", "BAM")] in
  (on_disk wa "a.fq.gz" /\ fs wa !! "b.fq.gz" = None /\
   _merge_list_fastqs inputs "m.fq.gz" no_aligner wa
     = Raise (AssertNotAllExist ["a.fq.gz"; "b.fq.gz"]) wa) /\
  (fs wb !! "a.fq.gz" = None /\ on_disk wb "b.fq.gz" /\
   _merge_list_fastqs inputs "m.fq.gz" no_aligner wb
     = Raise (AssertNotAllExist ["a.fq.gz"; "b.fq.gz"]) wb) /\
  (is_fastq "a.fq.gz" = true /\ on_disk wm "a.fq.gz" /\
   _merge_list_fastqs mixed "m.fq.gz" no_aligner wm
     = Raise (ValueErrorNotFastq ["a.fq.gz"; "aln.bam"]) wm /\
   "a.fq.gz" ∈ exn_files (ValueErrorNotFastq ["a.fq.gz"; "aln.bam"])).
Proof.
  intros inputs wa wb mixed wm. split; [| split].
  - split; [exists "A"; by_running |]. split; by_running.
  - split; [by_running |]. split; [exists "B"; by_running | by_running].
  - split; [by_running |]. split; [exists "A"; by_running |].
    split; [by_running | left].
Defined.

(** C10 at a paired first set followed by a single-end set. *)
Lemma merge_arity_unchecked_witness :
  let sets := [["a_1.fq.gz"; "a_2.fq.gz"]; ["b_1.fq.gz"]] in
  let w := disk [("a_1.fq.gz", "A1"); ("a_2.fq.gz", "A2"); ("b_1.fq.gz", "B1")] in
  merge sets "out/m.fastq.gz" no_aligner w = Raise IndexError w.
Proof.
  intros sets w.
  destruct (merge_arity_unchecked "out/m.fastq.gz" no_aligner w)
    as (_ & Hshort & _).
  apply Hshort; [cbn; lia |].
  exists ["b_1.fq.gz"]. split; [left | cbn; lia].
Defined.

(** C2 at a descriptor without a [files] entry. *)
Lemma get_fastq_files_no_input_witness :
  let data := {| files := None; reference := ["fasta"; "bwa"];
                 config := {| aligner := Some "bwa" |}; work_dir := "work";
                 trim_reads := true; quality_format := "standard" |} in
  let w := disk [("a.fastq", "A")] in
  files data = None /\ get_fastq_files data w = Raise AssertNoFiles w.
Proof.
  intros data w. split; [reflexivity |].
  destruct (get_fastq_files_no_input data w) as [Habsent _].
  apply Habsent. reflexivity.
Defined.

(** C2 as stated fails: with an empty list of files the call does not
    fail; it creates the gzip directory and returns the empty list. *)
Lemma empty_file_list_counterexample :
  let data := lane [] ["fasta"; "bwa"] (Some "bwa") in
  let w := disk [("a.fastq", "A")] in
  files data = Some [] /\
  get_fastq_files data w = Ok [] (record (Makedir "work/fastq") w) /\
  log (record (Makedir "work/fastq") w) = [Makedir "work/fastq"].
Proof.
  intros data w. split; [reflexivity |]. split; by_running.
Defined.

(** C3 at a merge whose output and inputs are all on disk. *)
Lemma merge_list_cached_witness :
  let inputs := ["a.fastq.gz"; "b.fastq"] in
  let w := disk [("a.fastq.gz", "A"); ("b.fastq", "B"); ("m.fastq.gz", "M")] in
  on_disk w "m.fastq.gz" /\
  _merge_list_fastqs inputs "m.fastq.gz" no_aligner w = Ok "m.fastq.gz" w.
Proof.
  intros inputs w.
  assert (Hout : on_disk w "m.fastq.gz") by (exists "M"; by_running).
  split; [exact Hout |].
  apply merge_list_cached; [exact Hout | |].
  - intros f Hf. apply list_elem_of_In in Hf.
    destruct Hf as [<- | [<- | []]]; by_running.
  - intros f Hf. apply list_elem_of_In in Hf.
    destruct Hf as [<- | [<- | []]]; [exists "A" | exists "B"]; by_running.
Defined.

(** C3 as stated fails after a merge of one gzip-compressed input: the
    first call moves the input to the output; in the world it leaves,
    the output is on disk, and the same call raises the failed
    existence assertion instead of returning the output. *)
Lemma merge_list_after_move_counterexample :
  let inputs := ["a.fastq.gz"] in
  let w := disk [("a.fastq.gz", "A")] in
  let w1 := set_fs (<["m.fastq.gz" := "A"]> (delete "a.fastq.gz" (fs w)))
                   (record (Move "a.fastq.gz" "m.fastq.gz") w) in
  _merge_list_fastqs inputs "m.fastq.gz" no_aligner w = Ok "m.fastq.gz" w1 /\
  on_disk w1 "m.fastq.gz" /\
  _merge_list_fastqs inputs "m.fastq.gz" no_aligner w1
    = Raise (AssertNotAllExist inputs) w1.
Proof.
  intros inputs w w1. split; [by_running |].
  split; [exists "A"; by_running | by_running].
Defined.

(** C1 on the code: a [.bam] input replaces what the loop has gathered
    so far.  With an aligner that reads BAM, the batch
    [a.fastq.gz, b.bam] is staged as [b.bam] alone, while the same files
    in the other order are both kept; with an aligner that needs the
    conversion, the batch is staged as the two converted mates alone. *)
Theorem bam_input_discards_earlier_files :
  let w := disk [("a.fastq.gz", "A"); ("b.bam", "B")] in
  get_fastq_files (lane ["a.fastq.gz"; "b.bam"] ["fasta"; "bwa"] (Some "bwa")) w
    = Ok ["b.bam"] (record (Makedir "work/fastq") w) /\
  get_fastq_files (lane ["b.bam"; "a.fastq.gz"] ["fasta"; "bwa"] (Some "bwa")) w
    = Ok ["b.bam"; "a.fastq.gz"] (record (Makedir "work/fastq") w) /\
  exists w',
    get_fastq_files (lane ["a.fastq.gz"; "b.bam"] ["fasta"; "star"] (Some "star")) w
      = Ok ["work/b_1.fastq.gz"; "work/b_2.fastq.gz"] w'.
Proof.
  intros w. split; [by_running |]. split; [by_running |].
  eexists. by_running.
Qed.

(** C4 at a batch of two remote read files. *)
Lemma remote_input_passes_through_witness :
  let fnames := ["s3://bucket/r_1.fastq"; "s3://bucket/r_2.fastq.bz2"] in
  let data := lane fnames ["fasta"; "bwa"] (Some "bwa") in
  let w := disk [] in
  (is_remote "s3://bucket/r_1.fastq" = true /\
   PyStr.endswith "s3://bucket/r_1.fastq" ".bam" = false) /\
  get_fastq_files data w = Ok fnames (record (Makedir "work/fastq") w).
Proof.
  intros fnames data w.
  assert (Hr : is_remote "s3://bucket/r_1.fastq" = true) by by_running.
  assert (Hext : PyStr.endswith "s3://bucket/r_1.fastq" ".bam" = false)
    by by_running.
  split; [split; assumption |].
  destruct (remote_input_passes_through
              "s3://bucket/r_1.fastq" data Hr (or_introl Hext))
    as (_ & _ & Hall).
  rewrite (Hall w fnames); [by_running | reflexivity |].
  intros x Hx. apply list_elem_of_In in Hx.
  destruct Hx as [<- | [<- | []]]; split; by_running.
Defined.

(** C4 as stated fails on a remote [.bam] file when the aligner does not
    read BAM: the file is handed to the conversion, and the result holds
    the converted mates, not the file. *)
Lemma remote_bam_counterexample :
  let f := "s3://bucket/sample.bam" in
  let data := lane [f] ["fasta"; "star"] (Some "star") in
  let w := disk [] in
  is_remote f = true /\
  exists w',
    get_fastq_files data w
      = Ok ["work/sample_1.fastq.gz"; "work/sample_2.fastq.gz"] w' /\
    log w' = [CallBamToFastq f; Makedir "work/fastq"] /\
    f ∉ ["work/sample_1.fastq.gz"; "work/sample_2.fastq.gz"].
Proof.
  intros f data w. split; [by_running |].
  eexists. split; [by_running |]. split; [by_running |].
  intros Hin. apply list_elem_of_In in Hin.
  destruct Hin as [Heq | [Heq | []]]; discriminate.
Defined.

(** C5 at a batch of one uncompressed and one bzip2-compressed file,
    without a [bowtie] index in the reference. *)
Lemma gzip_decided_per_batch_witness :
  let fnames := ["in/a.fastq"; "in/b.fq.bz2"] in
  let data := lane fnames ["fasta"; "bwa"] (Some "bwa") in
  let w := disk [("in/a.fastq", "A"); ("in/b.fq.bz2", "B")] in
  (stage_files data [] fnames w = Ok [Some "in/a.fastq"; Some "in/b.fq.bz2"] w /\
   ~ needs_uncompressed data) /\
  forall res w',
    get_fastq_files data w = Ok res w' ->
    res = ["work/fastq/a.fastq.gz"; "work/fastq/b.fq.gz"].
Proof.
  intros fnames data w.
  assert (Hstage : stage_files data [] fnames w
                   = Ok [Some "in/a.fastq"; Some "in/b.fq.bz2"] w) by by_running.
  assert (Hnot : ~ needs_uncompressed data).
  { unfold needs_uncompressed. intros Hin. apply list_elem_of_In in Hin.
    destruct Hin as [Heq | [Heq | []]]; discriminate. }
  split; [split; assumption |].
  destruct (gzip_decided_per_batch data w fnames _ w eq_refl Hstage)
    as (_ & Hzip & _).
  destruct (Hzip Hnot) as [_ Hres].
  intros res w' Hrun. rewrite (Hres res w' Hrun). by_running.
Defined.

(** C5 as stated fails on the configured aligner.  With the aligner
    [bowtie] and no [bowtie] key in the reference the file is
    compressed; with the aligner [bwa] and a [bowtie] key in the
    reference it is not. *)
Lemma gzip_ignores_aligner_counterexample :
  let w := disk [("in/a.fastq", "A")] in
  let bowtie_no_key := lane ["in/a.fastq"] ["fasta"] (Some "bowtie") in
  let bwa_with_key := lane ["in/a.fastq"] ["fasta"; "bowtie"] (Some "bwa") in
  (aligner (config bowtie_no_key) = Some "bowtie" /\
   get_fastq_files bowtie_no_key w
     = Ok ["work/fastq/a.fastq.gz"]
          (set_fs (<["work/fastq/a.fastq.gz" := "gz(A)"]> (fs w))
                  (record (RunGzip "in/a.fastq" "work/fastq/a.fastq.gz")
                          (record (Makedir "work/fastq") w)))) /\
  (aligner (config bwa_with_key) = Some "bwa" /\
   get_fastq_files bwa_with_key w = Ok ["in/a.fastq"] w).
Proof.
  intros w bowtie_no_key bwa_with_key.
  split; (split; [reflexivity | by_running]).
Defined.

(** C6 at two file sets with an uncompressed, a bzip2-compressed and two
    gzip-compressed files. *)
Lemma merge_paired_concatenates_witness :
  let sets := [["a_1.fq"; "a_2.fq.gz"]; ["b_1.fq.bz2"; "b_2.fq.gz"]] in
  let w := disk [("a_1.fq", "A1"); ("a_2.fq.gz", "A2");
                 ("b_1.fq.bz2", "B1"); ("b_2.fq.gz", "B2")] in
  (fs w !! "out/m_R1.fastq.gz" = None /\ fs w !! "out/m_R2.fastq.gz" = None) /\
  exists w',
    merge sets "out/m.fastq.gz" no_aligner w
      = Ok (MergedPaired ["out/m_R1.fastq.gz"; "out/m_R2.fastq.gz"]) w' /\
    fs w' !! "out/m_R1.fastq.gz" = Some "gz(A1)gz(bunzip2(B1))" /\
    fs w' !! "out/m_R2.fastq.gz" = Some "A2B2".
Proof.
  intros sets w.
  assert (Hout1 : fs w !! paired_out "_R1" "out/m.fastq.gz" = None) by by_running.
  assert (Hout2 : fs w !! paired_out "_R2" "out/m.fastq.gz" = None) by by_running.
  split; [split; [exact Hout1 | exact Hout2] |].
  destruct (merge_paired_concatenates sets "out/m.fastq.gz" no_aligner w)
    as (w' & bytes1 & bytes2 & Hrun & Hcat1 & Hcat2 & Hat1 & Hat2 & _).
  - discriminate.
  - repeat constructor.
  - repeat constructor; solve [by_running | eexists; by_running].
  - exact Hout1.
  - exact Hout2.
  - by_deciding.
  - by_deciding.
  - unfold distinct_normal_forms. by_deciding.
  - unfold distinct_normal_forms. by_deciding.
  - unfold normal_forms_apart. by_deciding.
  - exists w'. vm_compute in Hcat1. vm_compute in Hcat2.
    injection Hcat1 as <-. injection Hcat2 as <-.
    split; [rewrite Hrun; by_running |]. split; [exact Hat1 | exact Hat2].
Defined.

(** C6 as stated fails in four ways.  When an output is on disk
    already, [merge] returns the two paths and leaves at that one the
    bytes it found there.  When the inputs are not compressed, each
    output holds the gzip-compressed forms of its mates one after the
    other, not the mates.  When the one set given has the same
    gzip-compressed file as both mates, the first merge moves the file
    away and the second fails its existence assertion.  On the empty
    sequence the call raises [IndexError]. *)
Lemma merge_paired_counterexample :
  let sets := [["a_1.fq.gz"; "a_2.fq.gz"]; ["b_1.fq.gz"; "b_2.fq.gz"]] in
  let w := disk [("a_1.fq.gz", "A1"); ("a_2.fq.gz", "A2");
                 ("b_1.fq.gz", "B1"); ("b_2.fq.gz", "B2");
                 ("out/m_R1.fastq.gz", "OLD")] in
  let plain := [["a_1.fq"; "a_2.fq"]; ["b_1.fq"; "b_2.fq"]] in
  let wp := disk [("a_1.fq", "A1"); ("a_2.fq", "A2");
                  ("b_1.fq", "B1"); ("b_2.fq", "B2")] in
  let wa := disk [("a.fq.gz", "A")] in
  (exists w',
     merge sets "out/m.fastq.gz" no_aligner w
       = Ok (MergedPaired ["out/m_R1.fastq.gz"; "out/m_R2.fastq.gz"]) w' /\
     cat (fs w) (mate 0 sets) = Some "A1B1" /\
     fs w' !! "out/m_R1.fastq.gz" = Some "OLD" /\
     fs w' !! "out/m_R2.fastq.gz" = Some "A2B2") /\
  (exists w',
     merge plain "out/m.fq" no_aligner wp
       = Ok (MergedPaired ["out/m_R1.fq"; "out/m_R2.fq"]) w' /\
     cat (fs wp) (mate 0 plain) = Some "A1B1" /\
     fs w' !! "out/m_R1.fq" = Some "gz(A1)gz(B1)") /\
  (exists w',
     merge [["a.fq.gz"; "a.fq.gz"]] "out/m.fastq.gz" no_aligner wa
       = Raise (AssertNotAllExist ["a.fq.gz"]) w' /\
     fs w' !! "out/m_R2.fastq.gz" = None) /\
  merge [] "out/m.fastq.gz" no_aligner wa = Raise IndexError wa.
Proof.
  intros sets w plain wp wa. split; [| split; [| split]].
  - eexists. split; [by_running |]. split; [by_running |]. split; by_running.
  - eexists. split; [by_running |]. split; by_running.
  - eexists. split; by_running.
  - by_running.
Defined.

(** ** Concrete runs for the further properties *)

(** X1 at the input of a conversion that runs. *)
Lemma gzip_fastq_keeps_files_witness :
  let w := disk [("in/a.fastq", "A")] in
  is_Some (fs w !! "in/a.fastq") /\
  fs (world_of (_gzip_fastq "in/a.fastq" (Some "work/fastq") w)) !! "in/a.fastq"
    = Some "A".
Proof.
  intros w.
  assert (Hq : is_Some (fs w !! "in/a.fastq")) by (exists "A"; by_running).
  split; [exact Hq |].
  rewrite (gzip_fastq_keeps_files "in/a.fastq" (Some "work/fastq") w "in/a.fastq"
             (or_introl Hq)).
  by_running.
Defined.


(** X3 at a conversion that runs the first time. *)
Lemma gzip_fastq_idempotent_witness :
  let w := disk [("in/a.fastq", "A")] in
  let w1 := set_fs (<["in/a.fastq.gz" := "gz(A)"]> (fs w))
                   (record (RunGzip "in/a.fastq" "in/a.fastq.gz") w) in
  _gzip_fastq "in/a.fastq" None w = Ok "in/a.fastq.gz" w1 /\
  _gzip_fastq "in/a.fastq" None w1 = Ok "in/a.fastq.gz" w1.
Proof.
  intros w w1.
  assert (Hrun : _gzip_fastq "in/a.fastq" None w = Ok "in/a.fastq.gz" w1)
    by by_running.
  split; [exact Hrun |].
  exact (gzip_fastq_idempotent _ _ _ _ _ Hrun).
Defined.


(** X5 at a bzip2-compressed read file converted in place. *)
Lemma bzip_gzip_idempotent_witness :
  let w := disk [("in/a.fq.bz2", "A")] in
  let w1 := set_fs (<["in/a.fq.gz" := "gz(bunzip2(A))"]> (fs w))
                   (record (RunBunzip2Gzip "in/a.fq.bz2" "in/a.fq.gz") w) in
  _bzip_gzip "in/a.fq.bz2" None w = Ok "in/a.fq.gz" w1 /\
  _bzip_gzip "in/a.fq.bz2" None w1 = Ok "in/a.fq.gz" w1.
Proof.
  intros w w1.
  assert (Hrun : _bzip_gzip "in/a.fq.bz2" None w = Ok "in/a.fq.gz" w1)
    by by_running.
  split; [exact Hrun |].
  destruct (bzip_gzip_idempotent _ _ _ _ _ Hrun) as [Hagain _]. exact Hagain.
Defined.

(** X6 at a batch of a local and a remote file. *)
Lemma staged_files_exist_witness :
  let data := lane ["in/a.fastq"; "s3://bucket/b.fastq"] ["fasta"; "bwa"] (Some "bwa") in
  let w := disk [("in/a.fastq", "A")] in
  let w' := set_fs (<["work/fastq/a.fastq.gz" := "gz(A)"]> (fs w))
                   (record (RunGzip "in/a.fastq" "work/fastq/a.fastq.gz")
                           (record (Makedir "work/fastq") w)) in
  get_fastq_files data w = Ok ["work/fastq/a.fastq.gz"; "s3://bucket/b.fastq"] w' /\
  (is_remote "work/fastq/a.fastq.gz" = true \/ on_disk w' "work/fastq/a.fastq.gz").
Proof.
  intros data w w'.
  assert (Hrun : get_fastq_files data w
                 = Ok ["work/fastq/a.fastq.gz"; "s3://bucket/b.fastq"] w')
    by by_running.
  split; [exact Hrun |].
  apply (staged_files_exist data w w' _ Hrun). left.
Defined.

(** X7 at a batch of an uncompressed, a gzip-compressed and a remote
    file. *)
Lemma stage_read_files_in_order_witness :
  let fnames := ["in/a.fastq"; "in/b.fq.gz"; "s3://bucket/c.fastq"] in
  let data := lane fnames ["fasta"; "bwa"] (Some "bwa") in
  let w := disk [("in/a.fastq", "A"); ("in/b.fq.gz", "B")] in
  no_grooming data = true /\
  exists w',
    get_fastq_files data w
      = Ok ["work/fastq/a.fastq.gz"; "in/b.fq.gz"; "s3://bucket/c.fastq"] w' /\
    fs w' !! "in/a.fastq" = Some "A".
Proof.
  intros fnames data w.
  assert (Hgroom : no_grooming data = true) by by_running.
  split; [exact Hgroom |].
  destruct (stage_read_files_in_order data fnames w eq_refl)
    as (w' & Hrun & Hmono).
  - intros f Hf. members Hf; by_running.
  - exact Hgroom.
  - intros f Hf. members Hf;
      [right; exists "A" | right; exists "B" | left]; by_running.
  - exists w'. split; [rewrite Hrun; by_running |].
    apply Hmono. by_running.
Defined.

(** X8 at a read file followed by a [.bam] file and another read file,
    with an aligner that reads BAM. *)
Lemma stage_from_last_bam_witness :
  let data := lane ["in/a.fastq.gz"; "in/b.bam"; "in/c.fastq.gz"]
                   ["fasta"; "bwa"] (Some "bwa") in
  let w := disk [("in/a.fastq.gz", "A"); ("in/b.bam", "B");
                 ("in/c.fastq.gz", "C")] in
  (PyStr.endswith "in/b.bam" ".bam" = true /\
   _pipeline_needs_fastq (config data) data = false) /\
  exists w', get_fastq_files data w = Ok ["in/b.bam"; "in/c.fastq.gz"] w'.
Proof.
  intros data w.
  assert (Hbam : PyStr.endswith "in/b.bam" ".bam" = true) by by_running.
  assert (Hneeds : _pipeline_needs_fastq (config data) data = false) by by_running.
  split; [split; assumption |].
  destruct (stage_from_last_bam data ["in/a.fastq.gz"] ["in/c.fastq.gz"]
              "in/b.bam" w eq_refl Hbam) as (w' & Hrun).
  - intros f Hf. members Hf. by_running.
  - exact Hneeds.
  - by_running.
  - intros f Hf. members Hf; right; [exists "B" | exists "C"]; by_running.
  - exists w'. rewrite Hrun. by_running.
Defined.

(** X9 at a batch whose second file is missing. *)
Lemma stage_for_bowtie_checks_inputs_witness :
  let fnames := ["in/a.fastq"; "in/b.fastq"; "in/c.fastq"] in
  let data := lane fnames ["fasta"; "bowtie"] (Some "bowtie") in
  let w := disk [("in/a.fastq", "A")] in
  needs_uncompressed data /\
  get_fastq_files data w = Raise (AssertNotExist "in/b.fastq") w.
Proof.
  intros fnames data w.
  assert (Hbowtie : needs_uncompressed data) by (right; left).
  split; [exact Hbowtie |].
  rewrite (stage_for_bowtie_checks_inputs data fnames w eq_refl).
  - by_running.
  - intros f Hf. members Hf; by_running.
  - by_running.
  - exact Hbowtie.
Defined.

(** X10 at two valid inputs. *)
Lemma merge_list_returns_iff_valid_witness :
  let inputs := ["a.fq.gz"; "b.fq"] in
  let w := disk [("a.fq.gz", "A"); ("b.fq", "B")] in
  exists r w', _merge_list_fastqs inputs "m.fq.gz" no_aligner w = Ok r w'.
Proof.
  intros inputs w.
  destruct (merge_list_returns_iff_valid inputs "m.fq.gz" no_aligner w)
    as [[Hvalid _] _].
  apply Hvalid. intros f Hf.
  members Hf; (split; [by_running |]); [exists "A" | exists "B"]; by_running.
Defined.

(** X11 at a merge of two inputs, one of them converted on the way. *)
Lemma merge_list_keeps_files_witness :
  let inputs := ["a.fq.gz"; "b.fq"] in
  let w := disk [("a.fq.gz", "A"); ("b.fq", "B")] in
  exists w',
    _merge_list_fastqs inputs "m.fq.gz" no_aligner w = Ok "m.fq.gz" w' /\
    fs w' !! "b.fq" = Some "B".
Proof.
  intros inputs w. eexists. split; [by_running |].
  eapply (merge_list_keeps_files inputs "m.fq.gz" "m.fq.gz" no_aligner w);
    [discriminate | by_running | by_running].
Defined.

(** X12 at a gzip-compressed input. *)
Lemma merge_list_single_input_moved_witness :
  let w := disk [("a.fq.gz", "A"); ("b.fq.gz", "B")] in
  (is_fastq "a.fq.gz" = true /\ on_disk w "a.fq.gz" /\ fs w !! "m.fq.gz" = None) /\
  exists w',
    _merge_list_fastqs ["a.fq.gz"] "m.fq.gz" no_aligner w = Ok "m.fq.gz" w' /\
    fs w' !! "m.fq.gz" = Some "A" /\
    fs w' !! "a.fq.gz" = None.
Proof.
  intros w.
  assert (Hfq : is_fastq "a.fq.gz" = true) by by_running.
  assert (Hin : on_disk w "a.fq.gz") by (exists "A"; by_running).
  assert (Hout : fs w !! "m.fq.gz" = None) by by_running.
  split; [auto |].
  destruct (merge_list_single_input_moved "a.fq.gz" "m.fq.gz" no_aligner w
              Hfq Hin Hout) as (w' & Hrun & Hat & _ & Hgone & _).
  exists w'. split; [exact Hrun |]. split.
  - rewrite Hat. by_running.
  - apply Hgone. by_running.
Defined.

(** X13 at a merge of two inputs. *)
Lemma merge_list_repeat_witness :
  let inputs := ["a.fq.gz"; "b.fq.gz"] in
  let w := disk [("a.fq.gz", "A"); ("b.fq.gz", "B")] in
  let w1 := set_fs (<["m.fq.gz" := "AB"]> (fs w))
                   (record (RunCat inputs "m.fq.gz") w) in
  _merge_list_fastqs inputs "m.fq.gz" no_aligner w = Ok "m.fq.gz" w1 /\
  _merge_list_fastqs inputs "m.fq.gz" no_aligner w1 = Ok "m.fq.gz" w1.
Proof.
  intros inputs w w1.
  assert (Hrun : _merge_list_fastqs inputs "m.fq.gz" no_aligner w = Ok "m.fq.gz" w1)
    by by_running.
  split; [exact Hrun |].
  apply (merge_list_repeat inputs "m.fq.gz" "m.fq.gz" no_aligner w w1 Hrun).
  left. discriminate.
Defined.

(** X14 at three single-end sets. *)
Lemma merge_single_end_concatenates_witness :
  let w := disk [("a.fq.gz", "A"); ("b.fq", "B"); ("c.fq.gz", "C")] in
  fs w !! "m.fq.gz" = None /\
  exists w',
    merge [["a.fq.gz"]; ["b.fq"]; ["c.fq.gz"]] "m.fq.gz" no_aligner w
      = Ok (MergedSingle "m.fq.gz") w' /\
    fs w' !! "m.fq.gz" = Some "Agz(B)C".
Proof.
  intros w.
  assert (Hout : fs w !! "m.fq.gz" = None) by by_running.
  split; [exact Hout |].
  destruct (merge_single_end_concatenates ["a.fq.gz"] [["b.fq"]; ["c.fq.gz"]]
              "m.fq.gz" no_aligner w)
    as (w' & bytes & Hrun & Hcat & Hat & _).
  - reflexivity.
  - repeat constructor.
  - repeat constructor; solve [by_running | eexists; by_running].
  - exact Hout.
  - unfold distinct_normal_forms. by_deciding.
  - exists w'. split; [exact Hrun |].
    vm_compute in Hcat. injection Hcat as <-. exact Hat.
Defined.

(** X15 at a pair whose second mate is a [.bam] file. *)
Lemma merge_paired_partial_output_witness :
  let w := disk [("a_1.fq.gz", "A1"); ("a_2.bam", "A2");
                 ("b_1.fq.gz", "B1"); ("b_2.fq.gz", "B2")] in
  (is_fastq "a_2.bam" = false /\ fs w !! "out/m_R1.fq.gz" = None) /\
  exists w1,
    merge [["a_1.fq.gz"; "a_2.bam"]; ["b_1.fq.gz"; "b_2.fq.gz"]]
          "out/m.fq.gz" no_aligner w
      = Raise (ValueErrorNotFastq ["a_2.bam"; "b_2.fq.gz"]) w1 /\
    on_disk w1 "out/m_R1.fq.gz".
Proof.
  intros w.
  assert (Hbad : is_fastq "a_2.bam" = false) by by_running.
  assert (Hout : fs w !! paired_out "_R1" "out/m.fq.gz" = None) by by_running.
  split; [split; [exact Hbad | exact Hout] |].
  destruct (merge_paired_partial_output
              ["a_1.fq.gz"; "a_2.bam"] [["b_1.fq.gz"; "b_2.fq.gz"]]
              "out/m.fq.gz" no_aligner w "a_2.bam")
    as (w1 & Hrun & Hthere).
  - cbn. lia.
  - repeat constructor.
  - repeat constructor; solve [by_running | eexists; by_running].
  - left.
  - exact Hbad.
  - exact Hout.
  - exists w1. split; [exact Hrun | exact Hthere].
Defined.

(** X16 at a sequence whose second set is empty. *)
Lemma merge_empty_set_index_error_witness :
  let w := disk [("a.fq.gz", "A")] in
  merge [["a.fq.gz"]; []] "m.fq.gz" no_aligner w = Raise IndexError w.
Proof.
  intros w. apply merge_empty_set_index_error. right. left.
Defined.

(** X17 at a local [.bam] file and an aligner that does not read BAM. *)
Lemma stage_bam_converted_witness :
  let data := lane ["in/s.bam"] ["fasta"; "star"] (Some "star") in
  let w := disk [("in/s.bam", "S")] in
  _pipeline_needs_fastq (config data) data = true /\
  exists w',
    get_fastq_files data w = Ok ["work/s_1.fastq.gz"; "work/s_2.fastq.gz"] w'.
Proof.
  intros data w.
  assert (Hneeds : _pipeline_needs_fastq (config data) data = true) by by_running.
  split; [exact Hneeds |].
  destruct (stage_bam_converted data "in/s.bam" w eq_refl) as [_ Hconv];
    [by_running | exact Hneeds |].
  destruct (Hconv [Some "work/s_1.fastq.gz"; Some "work/s_2.fastq.gz"]
              (<["work/s_2.fastq.gz" := "mate2(S)"]>
                 (<["work/s_1.fastq.gz" := "mate1(S)"]> (fs w))))
    as (w' & Hrun).
  - by_running.
  - intros f Hf. members Hf; right; eexists; by_running.
  - exists w'. rewrite Hrun. by_running.
Defined.
